(** * user-service: a shallow embedding of [services/user-service/app.py]

    The service keeps two module globals, [USERS] (username -> record) and
    [NEXT_ID], and exposes four Flask handlers.  Handlers are embedded as
    state-passing functions over those globals; Python exceptions that a
    handler does not catch are an explicit outcome.

    A Python [str] is a list of code points, lone surrogates included, as
    [json.loads] produces them.  The value of the Authorization header is
    Latin-1 text and is a Rocq string; a Rocq string is read as a [str]
    wherever one is expected.  [hashlib.sha256] is transcribed from FIPS
    180-4; the [itsdangerous] serializer is an interface parameter. *)

From Stdlib Require Import ZArith NArith List String Ascii Lia SpecFloat.
From stdpp Require Import base option gmap strings pretty.
Import ListNotations.

Local Open Scope string_scope.

(** ** SHA-256 (hashlib.sha256), on bytes given as numbers below 256;
    the round constants and the initial hash value are written in decimal *)
Module Sha256.
Local Open Scope N_scope.

Definition w32 (x : N) : N := x mod 4294967296.
Definition add32 (x y : N) : N := w32 (x + y).
Definition rotr (n x : N) : N :=
  N.lor (N.shiftr x n) (w32 (N.shiftl x (32 - n))).
Definition not32 (x : N) : N := 4294967295 - x.

Definition Ch (x y z : N) : N := N.lxor (N.land x y) (N.land (not32 x) z).
Definition Maj (x y z : N) : N :=
  N.lxor (N.lxor (N.land x y) (N.land x z)) (N.land y z).
Definition Sigma0 (x : N) : N := N.lxor (N.lxor (rotr 2 x) (rotr 13 x)) (rotr 22 x).
Definition Sigma1 (x : N) : N := N.lxor (N.lxor (rotr 6 x) (rotr 11 x)) (rotr 25 x).
Definition sigma0 (x : N) : N := N.lxor (N.lxor (rotr 7 x) (rotr 18 x)) (N.shiftr x 3).
Definition sigma1 (x : N) : N := N.lxor (N.lxor (rotr 17 x) (rotr 19 x)) (N.shiftr x 10).

Definition K : list N :=
  [
    1116352408; 1899447441; 3049323471; 3921009573;
    961987163; 1508970993; 2453635748; 2870763221;
    3624381080; 310598401; 607225278; 1426881987;
    1925078388; 2162078206; 2614888103; 3248222580;
    3835390401; 4022224774; 264347078; 604807628;
    770255983; 1249150122; 1555081692; 1996064986;
    2554220882; 2821834349; 2952996808; 3210313671;
    3336571891; 3584528711; 113926993; 338241895;
    666307205; 773529912; 1294757372; 1396182291;
    1695183700; 1986661051; 2177026350; 2456956037;
    2730485921; 2820302411; 3259730800; 3345764771;
    3516065817; 3600352804; 4094571909; 275423344;
    430227734; 506948616; 659060556; 883997877;
    958139571; 1322822218; 1537002063; 1747873779;
    1955562222; 2024104815; 2227730452; 2361852424;
    2428436474; 2756734187; 3204031479; 3329325298 ].

Definition H0 : list N :=
  [
    1779033703; 3144134277; 1013904242; 2773480762;
    1359893119; 2600822924; 528734635; 1541459225 ].

(** Padding: a 1 bit, zeros up to 56 mod 64 bytes, the bit length on 8 bytes. *)
Definition be_bytes (n : nat) (x : N) : list N :=
  map (fun i => (N.shiftr x (8 * N.of_nat i)) mod 256) (rev (seq 0 n)).

Definition pad (msg : list N) : list N :=
  let len := N.of_nat (length msg) in
  let zeros := N.to_nat ((119 - len mod 64) mod 64) in
  msg ++ [128] ++ repeat 0 zeros ++ be_bytes 8 (8 * len).

Fixpoint words (bs : list N) : list N :=
  match bs with
  | a :: b :: c :: d :: rest =>
      (a * 16777216 + b * 65536 + c * 256 + d) :: words rest
  | _ => []
  end.

Fixpoint blocks (fuel : nat) (ws : list N) : list (list N) :=
  match fuel, ws with
  | S fuel', _ :: _ => firstn 16 ws :: blocks fuel' (skipn 16 ws)
  | _, _ => []
  end.

(** Message schedule: [w] holds W[0..t-1], newest last. *)
Definition next_W (w : list N) : N :=
  let t := length w in
  let at_ (i : nat) := nth (t - i) w 0 in
  add32 (add32 (sigma1 (at_ 2%nat)) (at_ 7%nat))
        (add32 (sigma0 (at_ 15%nat)) (at_ 16%nat)).

Fixpoint extend (n : nat) (w : list N) : list N :=
  match n with
  | O => w
  | S n' => extend n' (w ++ [next_W w])
  end.

Definition schedule (block : list N) : list N := extend 48 block.

Definition round (st : list N) (kw : N * N) : list N :=
  match st with
  | [a; b; c; d; e; f; g; h] =>
      let t1 := add32 (add32 (add32 h (Sigma1 e)) (add32 (Ch e f g) (fst kw))) (snd kw) in
      let t2 := add32 (Sigma0 a) (Maj a b c) in
      [add32 t1 t2; a; b; c; add32 d t1; e; f; g]
  | _ => st
  end.

Fixpoint add_state (xs ys : list N) : list N :=
  match xs, ys with
  | x :: xs', y :: ys' => add32 x y :: add_state xs' ys'
  | _, _ => []
  end.

Definition compress (h : list N) (block : list N) : list N :=
  add_state h (fold_left round (combine K (schedule block)) h).

Definition digest (msg : list N) : list N :=
  let ws := words (pad msg) in
  let h := fold_left compress (blocks (length ws) ws) H0 in
  flat_map (be_bytes 4) h.

Definition hex_digit (n : N) : ascii :=
  if n <? 10 then ascii_of_N (48 + n) else ascii_of_N (87 + n).

Fixpoint hex (bs : list N) : string :=
  match bs with
  | [] => EmptyString
  | b :: rest => String (hex_digit (b / 16)) (String (hex_digit (b mod 16)) (hex rest))
  end.

Definition hexdigest (msg : list N) : string := hex (digest msg).
End Sha256.

(** ** The Python values and operations the module uses *)
Module Py.

(** A [str]: its code points. *)
Definition str : Type := list N.

#[export] Instance str_eq_dec : EqDecision str.
Proof. unfold str. apply _. Defined.
#[export] Instance str_countable : Countable str.
Proof. unfold str. apply _. Defined.

(** Latin-1 text as a [str]: each character is its code point. *)
Definition latin1 (s : string) : str :=
  map N_of_ascii (list_ascii_of_string s).
Coercion latin1 : string >-> str.

(** [a == b] on two [str]. *)
Fixpoint eqb_str (a b : str) : bool :=
  match a, b with
  | [], [] => true
  | x :: a', y :: b' => (x =? y)%N && eqb_str a' b'
  | _, _ => false
  end.

(** Values produced by [json.loads]; [JNull] is Python's [None]. *)
#[warnings="-register-all"]
Inductive json : Type :=
| JNull
| JBool (b : bool)
| JInt (z : Z)
| JFloat (f : spec_float)
| JStr (s : str)
| JArr (items : list json)
| JObj (fields : list (str * json)).

(** A dict is its list of items; a key occurs at most once in a dict that
    Python built, and lookup takes the first item with the key. *)
Abbreviation dict := (list (str * json)).

(** The [Exception] subclasses that can be raised here. *)
Inductive exn : Type :=
| AttributeError
| TypeError
| KeyError
| IndexError
| UnicodeEncodeError
| BadSignature
| BadPayload.

Inductive result (A : Type) : Type :=
| Ok (a : A)
| Raise (e : exn).
Arguments Ok {A} a.
Arguments Raise {A} e.

(** [bool(v)] *)
Definition truthy (v : json) : bool :=
  match v with
  | JNull => false
  | JBool b => b
  | JInt z => negb (z =? 0)%Z
  | JFloat (S754_zero _) => false
  | JFloat _ => true
  | JStr s => match s with [] => false | _ => true end
  | JArr items => match items with [] => false | _ => true end
  | JObj fields => match fields with [] => false | _ => true end
  end.

(** [a or b] *)
Definition py_or (a b : json) : json := if truthy a then a else b.

(** [d.get(k, default)] on a dict. *)
Fixpoint dict_get (d : dict) (k : str) (default : json) : json :=
  match d with
  | [] => default
  | (k', v) :: rest => if eqb_str k' k then v else dict_get rest k default
  end.

(** [d[k]] on a dict. *)
Fixpoint dict_item (d : dict) (k : str) : result json :=
  match d with
  | [] => Raise KeyError
  | (k', v) :: rest => if eqb_str k' k then Ok v else dict_item rest k
  end.

(** [{k: v for k, v in d.items() if k != key}] *)
Definition dict_without (key : str) (d : dict) : dict :=
  List.filter (fun kv => negb (eqb_str (fst kv) key)) d.

Definition keys (d : dict) : list str := map fst d.

(** [v.get(k, default)] on any value: only a dict has the attribute. *)
Definition get (v : json) (k : str) (default : json) : result json :=
  match v with
  | JObj d => Ok (dict_get d k default)
  | _ => Raise AttributeError
  end.

(** [str.isspace] on one code point: the Unicode whitespace characters. *)
Definition is_space (n : N) : bool :=
  ((9 <=? n) && (n <=? 13) || (28 <=? n) && (n <=? 32)
   || (n =? 133) || (n =? 160) || (n =? 5760)
   || (8192 <=? n) && (n <=? 8202)
   || (n =? 8232) || (n =? 8233) || (n =? 8239) || (n =? 8287)
   || (n =? 12288))%N.

Fixpoint lstrip (s : str) : str :=
  match s with
  | [] => []
  | c :: s' => if is_space c then lstrip s' else s
  end.

Fixpoint rstrip (s : str) : str :=
  match s with
  | [] => []
  | c :: s' =>
      match rstrip s' with
      | [] => if is_space c then [] else [c]
      | t => c :: t
      end
  end.

(** [s.strip()] *)
Definition strip (s : str) : str := rstrip (lstrip s).

(** [v.strip()] on any value: only a [str] has the attribute. *)
Definition strip_value (v : json) : result str :=
  match v with
  | JStr s => Ok (strip s)
  | _ => Raise AttributeError
  end.

(** [s.encode("utf-8")], as byte values: a surrogate cannot be encoded.
    (A number from 0x110000 on is not a code point of any [str].) *)
Definition encode_char (n : N) : result (list N) :=
  if (n <? 128)%N then Ok [n]
  else if (n <? 2048)%N then Ok [192 + n / 64; 128 + n mod 64]%N
  else if (55296 <=? n)%N && (n <=? 57343)%N then Raise UnicodeEncodeError
  else if (n <? 65536)%N then
    Ok [224 + n / 4096; 128 + (n / 64) mod 64; 128 + n mod 64]%N
  else if (n <? 1114112)%N then
    Ok [240 + n / 262144; 128 + (n / 4096) mod 64;
        128 + (n / 64) mod 64; 128 + n mod 64]%N
  else Raise UnicodeEncodeError.

Fixpoint encode_utf8 (s : str) : result (list N) :=
  match s with
  | [] => Ok []
  | c :: s' =>
      match encode_char c with
      | Ok bs =>
          match encode_utf8 s' with
          | Ok rest => Ok (bs ++ rest)%list
          | Raise e => Raise e
          end
      | Raise e => Raise e
      end
  end.

(** [str(n)] for an int. *)
Definition str_of_int (n : Z) : str := latin1 (pretty n).

(** *** The header value: Latin-1 text *)

(** [str.isspace] on the code points below 256. *)
Definition is_space_latin1 (c : ascii) : bool := is_space (N_of_ascii c).

Fixpoint lstrip_latin1 (s : string) : string :=
  match s with
  | EmptyString => EmptyString
  | String c s' => if is_space_latin1 c then lstrip_latin1 s' else s
  end.

Fixpoint rstrip_latin1 (s : string) : string :=
  match s with
  | EmptyString => EmptyString
  | String c s' =>
      match rstrip_latin1 s' with
      | EmptyString => if is_space_latin1 c then EmptyString else String c EmptyString
      | t => String c t
      end
  end.

(** [s.strip()] on Latin-1 text. *)
Definition strip_latin1 (s : string) : string := rstrip_latin1 (lstrip_latin1 s).

(** [str.lower] on the code points below 256. *)
Definition lower_char (c : ascii) : ascii :=
  let n := N_of_ascii c in
  if ((65 <=? n) && (n <=? 90)
      || (192 <=? n) && (n <=? 222) && negb (n =? 215))%N
  then ascii_of_N (n + 32) else c.

Fixpoint lower (s : string) : string :=
  match s with
  | EmptyString => EmptyString
  | String c s' => String (lower_char c) (lower s')
  end.

(** [s.startswith(p)] *)
Fixpoint startswith (s p : string) : bool :=
  match p, s with
  | EmptyString, _ => true
  | String a p', String b s' => if Ascii.eqb a b then startswith s' p' else false
  | String _ _, EmptyString => false
  end.

(** [s.split(" ", 1)] *)
Fixpoint cut_space (s : string) : option (string * string) :=
  match s with
  | EmptyString => None
  | String c s' =>
      if Ascii.eqb c " " then Some (EmptyString, s')
      else match cut_space s' with
           | Some (a, b) => Some (String c a, b)
           | None => None
           end
  end.

Definition split_space_1 (s : string) : list string :=
  match cut_space s with
  | Some (a, b) => [a; b]
  | None => [s]
  end.

(** [l[i]] *)
Definition index {A} (l : list A) (i : nat) : result A :=
  match nth_error l i with
  | Some x => Ok x
  | None => Raise IndexError
  end.

End Py.
Export Py.

(** ** Exceptions and the module globals as monads *)

#[export] Instance result_ret : MRet result := @Ok.
#[export] Instance result_bind : MBind result := λ A B f m,
  match m with
  | Ok a => f a
  | Raise e => Raise e
  end.

(** [try: body / except Exception: handler]: every [exn] is an [Exception]. *)
Definition try_except {A} (body : result A) (handler : exn → result A) : result A :=
  match body with
  | Ok a => Ok a
  | Raise e => handler e
  end.

(** The module globals. *)
Record store : Type := Store {
  USERS : gmap str dict;   (* username -> dict *)
  NEXT_ID : Z
}.

(** The globals when the module has just been imported. *)
Definition initial : store := {| USERS := ∅; NEXT_ID := 1 |}.

(** A view function runs on the globals and either returns or raises. *)
Definition view (A : Type) : Type := store → store * result A.

#[export] Instance view_ret : MRet view := λ A a s, (s, Ok a).
#[export] Instance view_bind : MBind view := λ A B f m s,
  match m s with
  | (s', Ok a) => f a s'
  | (s', Raise e) => (s', Raise e)
  end.

Definition lift {A} (r : result A) : view A := λ s, (s, r).
Definition get_USERS : view (gmap str dict) := λ s, (s, Ok (USERS s)).
Definition get_NEXT_ID : view Z := λ s, (s, Ok (NEXT_ID s)).
Definition set_USERS (m : gmap str dict) : view unit :=
  λ s, ({| USERS := m; NEXT_ID := NEXT_ID s |}, Ok tt).
Definition set_NEXT_ID (n : Z) : view unit :=
  λ s, ({| USERS := USERS s; NEXT_ID := n |}, Ok tt).

(** What a view hands back to Flask: a JSON body and a status code. *)
Record response : Type := Response {
  body : json;
  status : Z
}.

(** [jsonify(d), code]; a bare [jsonify(d)] is sent with status 200. *)
Definition jsonify (d : dict) (code : Z) : response :=
  {| body := JObj d; status := code |}.

(** [request.get_json(force=True, silent=True)]: the parsed body, or [None]
    when the body does not parse. *)
Definition get_json (parsed : option json) : json :=
  match parsed with
  | Some v => v
  | None => JNull
  end.

(** [USERS.get(username)] *)
Definition users_get (m : gmap str dict) (username : str) : json :=
  match m !! username with
  | Some d => JObj d
  | None => JNull
  end.

(** [v in USERS]: the keys are [str]; a list or dict is unhashable. *)
Definition users_contains (m : gmap str dict) (v : json) : result bool :=
  match v with
  | JStr k => Ok (bool_decide (is_Some (m !! k)))
  | JArr _ | JObj _ => Raise TypeError
  | _ => Ok false
  end.

(** [USERS[v]] *)
Definition users_item (m : gmap str dict) (v : json) : result dict :=
  match v with
  | JStr k => match m !! k with Some d => Ok d | None => Raise KeyError end
  | JArr _ | JObj _ => Raise TypeError
  | _ => Raise KeyError
  end.

(** [v[k]] for a [str] key: a dict is subscripted, [None] is not. *)
Definition item (v : json) (k : str) : result json :=
  match v with
  | JObj d => dict_item d k
  | _ => Raise TypeError
  end.

(** [v != s] for a [str] [s]: only an equal [str] compares equal. *)
Definition ne_str (v : json) (s : str) : bool :=
  match v with
  | JStr s' => negb (eqb_str s' s)
  | _ => true
  end.

(** ** The itsdangerous serializer, as an interface *)

(** [dumps] serializes a value to JSON text, encodes it and signs it; it
    raises when a step does (the encoding of the text does on a lone
    surrogate). [loads] checks the signature and decodes, raising
    [BadSignature] or [BadPayload]. All of these are [Exception]s. *)
Record Serializer : Type := {
  dumps : json → result str;
  loads : str → result json
}.

(** ** app.py *)
Module App.
Section Handlers.

(** [itsdangerous.URLSafeSerializer(secret_key, salt=...)] *)
Variable URLSafeSerializer : str → str → Serializer.
(** [os.getenv("SECRET_KEY")] when the module is imported. *)
Variable env_SECRET_KEY : option str.

Definition SECRET : str := default ("dev-secret" : str) env_SECRET_KEY.
Definition signer : Serializer := URLSafeSerializer SECRET "user-auth".

Definition hash_pw (pw : json) : result str :=
  match pw with
  | JStr s =>
      data ← encode_utf8 s;
      Ok (latin1 (Sha256.hexdigest data))
  | _ => Raise AttributeError
  end.

Definition make_token (username : str) : result str :=
  dumps signer (JObj [("u" : str, JStr username)]).

Definition parse_token (token : str) : result json :=
  try_except
    (data ← loads signer token;
     get data "u" JNull)
    (λ _, Ok JNull).

Definition healthz : view response :=
  mret (jsonify [("status" : str, JStr "ok"); ("service" : str, JStr "user-service")] 200).

Definition register (parsed : option json) : view response :=
  let payload := py_or (get_json parsed) (JObj []) in
  username ← lift (get payload "username" (JStr "") ≫= strip_value);
  password ← lift (get payload "password" (JStr ""));
  name ← lift (get payload "name" (JStr "") ≫= strip_value);
  email ← lift (get payload "email" (JStr "") ≫= strip_value);
  if negb (truthy (JStr username)) || negb (truthy password) then
    mret (jsonify [("error" : str, JStr "username and password required")] 400)
  else
  users ← get_USERS;
  if bool_decide (is_Some (users !! username)) then
    mret (jsonify [("error" : str, JStr "username already exists")] 409)
  else
  next_id ← get_NEXT_ID;
  password_hash ← lift (hash_pw password);
  let user : dict :=
    [ ("id" : str, JStr (str_of_int next_id));
      ("username" : str, JStr username);
      ("name" : str, JStr name);
      ("email" : str, JStr email);
      ("password_hash" : str, JStr password_hash) ] in
  _ ← set_USERS (<[username := user]> users);
  _ ← set_NEXT_ID (next_id + 1);
  let public := dict_without "password_hash" user in
  mret (jsonify public 201).

Definition login (parsed : option json) : view response :=
  let payload := py_or (get_json parsed) (JObj []) in
  username ← lift (get payload "username" (JStr "") ≫= strip_value);
  password ← lift (get payload "password" (JStr ""));
  users ← get_USERS;
  let user := users_get users username in
  rejected ← lift
    (if negb (truthy user) then Ok true
     else stored ← item user "password_hash";
          given ← hash_pw password;
          Ok (ne_str stored given));
  if (rejected : bool) then
    mret (jsonify [("error" : str, JStr "invalid credentials")] 401)
  else
  token ← lift (make_token username);
  mret (jsonify [("token" : str, JStr token)] 200).

(** [auth.split(" ",1)[1].strip()] *)
Definition bearer_token (auth : string) : result string :=
  part ← index (split_space_1 auth) 1;
  Ok (strip_latin1 part).

Definition profile (authorization : option string) : view response :=
  let auth := default "" authorization in
  if negb (startswith (lower auth) "bearer ") then
    mret (jsonify [("error" : str, JStr "missing bearer token")] 401)
  else
  token ← lift (bearer_token auth);
  username ← lift (parse_token (latin1 token));
  users ← get_USERS;
  rejected ← lift
    (if negb (truthy username) then Ok true
     else found ← users_contains users username;
          Ok (negb found));
  if (rejected : bool) then
    mret (jsonify [("error" : str, JStr "invalid token")] 401)
  else
  user ← lift (users_item users username);
  let public := dict_without "password_hash" user in
  mret (jsonify public 200).

(** *** Requests served one after the other *)

Inductive request : Type :=
| GetHealthz
| PostRegister (parsed : option json)
| PostLogin (parsed : option json)
| GetProfile (authorization : option string).

Definition serve (req : request) : view response :=
  match req with
  | GetHealthz => healthz
  | PostRegister parsed => register parsed
  | PostLogin parsed => login parsed
  | GetProfile authorization => profile authorization
  end.

(** The globals after a sequence of requests, and what each one got: a
    response, or an exception Flask answers with a 500. *)
Fixpoint run (reqs : list request) (s : store) : store * list (result response) :=
  match reqs with
  | [] => (s, [])
  | req :: rest =>
      let '(s1, out) := serve req s in
      let '(s2, outs) := run rest s1 in
      (s2, out :: outs)
  end.

Definition reachable (s : store) : Prop :=
  ∃ reqs, (run reqs initial).1 = s.

End Handlers.
End App.
Export App.

(** ** A serializer to run the handlers with

    An instance of the interface for concrete runs: the payload [{"u": name}]
    is written as [name], a dot and a keyed checksum in decimal; [loads]
    cuts at the last dot and recomputes the checksum. As the library does,
    [dumps] encodes the text as UTF-8 before it signs, and so raises on a
    name that does not encode. *)
Module Checksum.

Fixpoint mix (acc : N) (s : str) : N :=
  match s with
  | [] => acc
  | c :: s' => mix ((acc * 33 + c) mod 4294967296)%N s'
  end.

Definition tag (key salt payload : str) : string :=
  pretty (mix (mix (mix 5381%N key) salt) payload).

(** [s.rsplit(".", 1)] when there is a dot. *)
Fixpoint rcut (s : str) : option (str * str) :=
  match s with
  | [] => None
  | c :: s' =>
      match rcut s' with
      | Some (a, b) => Some (c :: a, b)
      | None => if (c =? 46)%N then Some ([], s') else None
      end
  end.

Definition dumps (key salt : str) (v : json) : result str :=
  match v with
  | JObj [(k, JStr name)] =>
      if eqb_str k "u" then
        _ ← encode_utf8 name;
        Ok (name ++ latin1 "." ++ latin1 (tag key salt name))%list
      else Ok []
  | _ => Ok []
  end.

Definition loads (key salt : str) (token : str) : result json :=
  match rcut token with
  | Some (name, sig) =>
      if eqb_str sig (tag key salt name) then Ok (JObj [("u" : str, JStr name)])
      else Raise BadSignature
  | None => Raise BadSignature
  end.

Definition serializer (key salt : str) : Serializer :=
  Build_Serializer (dumps key salt) (loads key salt).

(** The token for a Latin-1 name under the default secret, as header text. *)
Definition token (name : string) : string :=
  name ++ "." ++ tag "dev-secret" "user-auth" name.

End Checksum.

(** * Vocabulary of the properties *)

Local Open Scope Z_scope.
Local Open Scope string_scope.

(** The record [register] stores for a user. *)
Definition user_record (id : Z) (username name email digest : str) : dict :=
  [ ("id" : str, JStr (str_of_int id));
    ("username" : str, JStr username);
    ("name" : str, JStr name);
    ("email" : str, JStr email);
    ("password_hash" : str, JStr digest) ].

(** The fields of a record that leave the service. *)
Definition public_record (id : Z) (username name email : str) : dict :=
  [ ("id" : str, JStr (str_of_int id));
    ("username" : str, JStr username);
    ("name" : str, JStr name);
    ("email" : str, JStr email) ].

(** The digest [hash_pw] returns for a [str] that encodes (the empty [str]
    stands in where [hash_pw] raises). *)
Definition sha256_hex (s : str) : str :=
  match hash_pw (JStr s) with
  | Ok h => h
  | Raise _ => []
  end.

(** The payload fields [register] reads, when they have the types it needs. *)
Record registration : Type := Registration {
  reg_username : str;
  reg_password : json;
  reg_name : str;
  reg_email : str
}.

Definition read_registration (parsed : option json) : result registration :=
  let payload := py_or (get_json parsed) (JObj []) in
  username ← get payload "username" (JStr "") ≫= strip_value;
  password ← get payload "password" (JStr "");
  name ← get payload "name" (JStr "") ≫= strip_value;
  email ← get payload "email" (JStr "") ≫= strip_value;
  Ok (Registration username password name email).

(** The payload fields [login] reads. *)
Definition read_login (parsed : option json) : result (str * json) :=
  let payload := py_or (get_json parsed) (JObj []) in
  username ← get payload "username" (JStr "") ≫= strip_value;
  password ← get payload "password" (JStr "");
  Ok (username, password).

Definition invalid_credentials : response :=
  jsonify [("error" : str, JStr "invalid credentials")] 401.

Definition invalid_token : response :=
  jsonify [("error" : str, JStr "invalid token")] 401.

Definition missing_bearer_token : response :=
  jsonify [("error" : str, JStr "missing bearer token")] 401.

Definition public_fields : list str :=
  ["id" : str; "username" : str; "name" : str; "email" : str].

(** The ids handed out by the successful registrations of a run, in order. *)
Definition created (req : request) (out : result response) : list json :=
  match req, out with
  | PostRegister _, Ok r =>
      if (status r =? 201)%Z then
        match body r with
        | JObj d => [dict_get d "id" JNull]
        | _ => []
        end
      else []
  | _, _ => []
  end.

Fixpoint created_ids (reqs : list request) (outs : list (result response)) : list json :=
  match reqs, outs with
  | req :: reqs', out :: outs' => created req out ++ created_ids reqs' outs'
  | _, _ => []
  end.

(** The payload: [request.get_json(force=True, silent=True) or {}]. *)
Definition request_payload (parsed : option json) : json :=
  py_or (get_json parsed) (JObj []).

(** What every record of a reachable store looks like: the five fields
    [register] writes, under a key that [strip] leaves alone. *)
Definition store_ok (s : store) : Prop :=
  ∀ k d, USERS s !! k = Some d →
    (∃ id name email digest, d = user_record id k name email digest) ∧
    strip k = k.

(** What the reachable stores keep: [NEXT_ID] is one more than the number of
    records; every record sits under a non-empty key and carries an id below
    [NEXT_ID]; two keys never share an id. *)
Definition store_inv (s : store) : Prop :=
  NEXT_ID s = 1 + Z.of_nat (size (USERS s)) ∧
  (∀ (k : str) d, USERS s !! k = Some d →
     k ≠ "" ∧
     ∃ id name email digest,
       1 ≤ id < NEXT_ID s ∧ d = user_record id k name email digest) ∧
  (∀ k1 k2 d1 d2,
     USERS s !! k1 = Some d1 → USERS s !! k2 = Some d2 →
     dict_get d1 "id" JNull = dict_get d2 "id" JNull → k1 = k2).

(** Strings made of whitespace only (the empty string included). *)
Fixpoint whitespace (s : str) : bool :=
  match s with
  | [] => true
  | c :: s' => is_space c && whitespace s'
  end.

(** A string that does not start with whitespace. *)
Definition starts_clean (s : str) : Prop :=
  match s with
  | [] => True
  | c :: _ => is_space c = false
  end.

Definition starts_clean_latin1 (s : string) : Prop :=
  match s with
  | EmptyString => True
  | String c _ => is_space_latin1 c = false
  end.

(** Values that cannot be a dict key. *)
Definition unhashable (v : json) : Prop :=
  match v with
  | JArr _ | JObj _ => True
  | _ => False
  end.

(** A code point UTF-8 has an encoding for: below 0x110000 and no surrogate. *)
Definition scalar (n : N) : bool :=
  ((n <? 55296) || (57344 <=? n) && (n <? 1114112))%N.

(** The characters of [hexdigest()]. *)
Definition is_hex_digit (n : N) : bool :=
  ((48 <=? n) && (n <=? 57) || (97 <=? n) && (n <=? 102))%N.

(** A serializer that loads every token to [v], to run [profile] on
    payloads of any shape. *)
Definition loads_always (v : json) : str → str → Serializer :=
  λ _ _, Build_Serializer (λ _, Ok (latin1 "token")) (λ _, Ok v).

(** Requests and states for concrete runs: the handlers run with the checksum
    serializer and no [SECRET_KEY] in the environment, so with the secret
    [dev-secret]. *)
Definition registration_payload (username password name email : str) : option json :=
  Some (JObj [ ("username" : str, JStr username); ("password" : str, JStr password);
               ("name" : str, JStr name); ("email" : str, JStr email) ]).

Definition login_payload (username : str) (password : json) : option json :=
  Some (JObj [ ("username" : str, JStr username); ("password" : str, password) ]).

Definition alice : request :=
  PostRegister (registration_payload "alice" "pw1" "Alice" "a@x.com").

Definition bob : request :=
  PostRegister (registration_payload " bob " "pw2" "Bob" "b@x.com").

Definition with_alice : store := (run Checksum.serializer None [alice] initial).1.

Definition token_for (u : string) : string := Checksum.token u.

(** What [json.loads] gives for the JSON string ["\ud800"]. *)
Definition lone_surrogate : str := [55296%N].

(** The globals after a registration under the username ["\ud800"]. *)
Definition with_surrogate : store :=
  (run Checksum.serializer None
     [PostRegister (registration_payload lone_surrogate "pw" "" "")] initial).1.

(** * Properties *)

(** The digest is computed by [vm_compute] only; proof search leaves it
    folded. *)
Opaque Sha256.hexdigest.

Example sha256_abc :
  Sha256.hexdigest [97; 98; 99]%N
  = "ba7816bf8f01cfea414140de5dae2223b00361a396177a9cb410ff61f20015ad".
Proof. vm_compute. reflexivity. Qed.

Example sha256_empty :
  Sha256.hexdigest []
  = "e3b0c44298fc1c149afbf4c8996fb92427ae41e4649b934ca495991b7852b855".
Proof. vm_compute. reflexivity. Qed.

Example sha256_two_blocks :
  hash_pw (JStr "abcdbcdecdefdefgefghfghighijhijkijkljklmklmnlmnomnopnopq")
  = Ok (latin1 "248d6a61d20638b8e5c026930c3e6039a33ce45964ff2167f6ecedd419db06c1").
Proof. vm_compute. reflexivity. Qed.

(** "é€😀A" in UTF-8. *)
Example encode_utf8_lengths :
  encode_utf8 [233; 8364; 128512; 65]%N
  = Ok [195; 169; 226; 130; 172; 240; 159; 152; 128; 65]%N.
Proof. reflexivity. Qed.

(** ** Strings *)
Section Strings.

Lemma latin1_cons c s : latin1 (String c s) = N_of_ascii c :: latin1 s.
Proof. reflexivity. Qed.

Lemma latin1_app a b : latin1 (a ++ b) = (latin1 a ++ latin1 b)%list.
Proof.
  induction a as [|c a IH]; [done|].
  change (String c a ++ b) with (String c (a ++ b)).
  rewrite !latin1_cons, IH. reflexivity.
Qed.

Lemma latin1_inj a b : latin1 a = latin1 b → a = b.
Proof.
  revert b. induction a as [|c a IH]; intros [|d b]; try discriminate; [done|].
  rewrite !latin1_cons. intros [= Hc Hab].
  f_equal; [|by apply IH].
  rewrite <- (ascii_N_embedding c), <- (ascii_N_embedding d). by rewrite Hc.
Qed.

Lemma eqb_str_spec a b : reflect (a = b) (eqb_str a b).
Proof.
  revert b. induction a as [|x a IH]; intros [|y b]; cbn;
    try (constructor; congruence).
  destruct (N.eqb_spec x y) as [->|Hxy]; cbn.
  - destruct (IH b) as [->|Hab]; constructor; congruence.
  - constructor. congruence.
Qed.

Lemma eqb_str_refl a : eqb_str a a = true.
Proof. by destruct (eqb_str_spec a a). Qed.

Lemma truthy_str s : truthy (JStr s) = negb (eqb_str s "").
Proof. by destruct s. Qed.

Lemma str_of_int_inj a b : str_of_int a = str_of_int b → a = b.
Proof. intros H%latin1_inj. by apply (inj pretty). Qed.

(** *** Whitespace stripping *)

Lemma lstrip_whitespace s : whitespace s = true → lstrip s = [].
Proof.
  induction s as [|c s IH]; simpl; [done|].
  intros [Hc Hs]%andb_prop. rewrite Hc. auto.
Qed.

Lemma rstrip_whitespace s : whitespace s = true → rstrip s = [].
Proof.
  induction s as [|c s IH]; simpl; [done|].
  intros [Hc Hs]%andb_prop. rewrite IH, Hc; auto.
Qed.

Lemma lstrip_app_l l s : whitespace l = true → lstrip (l ++ s)%list = lstrip s.
Proof.
  induction l as [|c l IH]; simpl; [done|].
  intros [Hc Hl]%andb_prop. rewrite Hc. auto.
Qed.

Lemma rstrip_app_r s r : whitespace r = true → rstrip (s ++ r)%list = rstrip s.
Proof.
  intros Hr. induction s as [|c s IH]; simpl.
  - by apply rstrip_whitespace.
  - by rewrite IH.
Qed.

Lemma strip_app_r s r : whitespace r = true → strip (s ++ r)%list = strip s.
Proof.
  intros Hr. unfold strip. induction s as [|c s IH]; simpl.
  - by rewrite lstrip_whitespace.
  - destruct (is_space c); [done|].
    change (c :: (s ++ r)%list) with ((c :: s) ++ r)%list.
    by apply rstrip_app_r.
Qed.

Lemma strip_padded l s r :
  whitespace l = true → whitespace r = true →
  strip (l ++ s ++ r)%list = strip s.
Proof.
  intros Hl Hr. unfold strip. rewrite lstrip_app_l by done.
  by apply strip_app_r.
Qed.

Lemma lstrip_clean s : starts_clean (lstrip s).
Proof.
  induction s as [|c s IH]; simpl; [done|].
  destruct (is_space c) eqn:Hc; [done|]. simpl. done.
Qed.

Lemma lstrip_id s : starts_clean s → lstrip s = s.
Proof. destruct s as [|c s]; simpl; [done|]. by intros ->. Qed.

Lemma rstrip_clean s : starts_clean s → starts_clean (rstrip s).
Proof.
  destruct s as [|c s]; simpl; [done|]. intros Hc.
  destruct (rstrip s); [by rewrite Hc|done].
Qed.

Lemma rstrip_idemp s : rstrip (rstrip s) = rstrip s.
Proof.
  induction s as [|c s IH]; simpl; [done|].
  destruct (rstrip s) as [|c' t] eqn:Ht.
  - destruct (is_space c) eqn:Hc; simpl; [done|]. by rewrite Hc.
  - simpl in *. by rewrite IH.
Qed.

Lemma strip_idemp s : strip (strip s) = strip s.
Proof.
  unfold strip.
  rewrite (lstrip_id (rstrip (lstrip s))).
  - apply rstrip_idemp.
  - apply rstrip_clean, lstrip_clean.
Qed.

(** On Latin-1 text the two [strip] agree. *)
Lemma lstrip_latin1_spec s : latin1 (lstrip_latin1 s) = lstrip (latin1 s).
Proof.
  induction s as [|c s IH]; [done|].
  rewrite latin1_cons. cbn [lstrip_latin1 lstrip].
  unfold is_space_latin1. destruct (is_space _); [done|].
  by rewrite latin1_cons.
Qed.

Lemma rstrip_latin1_spec s : latin1 (rstrip_latin1 s) = rstrip (latin1 s).
Proof.
  induction s as [|c s IH]; [done|].
  rewrite latin1_cons. cbn [rstrip_latin1 rstrip].
  rewrite <- IH. unfold is_space_latin1.
  destruct (rstrip_latin1 s) as [|d t]; cbn [latin1 list_ascii_of_string map].
  - by destruct (is_space _).
  - reflexivity.
Qed.

Lemma strip_latin1_spec s : latin1 (strip_latin1 s) = strip (latin1 s).
Proof.
  unfold strip_latin1, strip.
  by rewrite rstrip_latin1_spec, lstrip_latin1_spec.
Qed.

Lemma strip_latin1_idemp s : strip_latin1 (strip_latin1 s) = strip_latin1 s.
Proof.
  apply latin1_inj. by rewrite !strip_latin1_spec, strip_idemp.
Qed.

End Strings.

(** ** The handlers, case by case *)

Ltac unfold_view :=
  unfold mbind, mret, view_bind, view_ret, result_bind, result_ret, lift,
    get_USERS, get_NEXT_ID, set_USERS, set_NEXT_ID in *.

(** [register] on the fields it has read. *)
Lemma register_read parsed s :
  register parsed s =
  match read_registration parsed with
  | Raise e => (s, Raise e)
  | Ok f =>
      if eqb_str (reg_username f) "" || negb (truthy (reg_password f)) then
        (s, Ok (jsonify [("error" : str, JStr "username and password required")] 400))
      else if bool_decide (is_Some (USERS s !! reg_username f)) then
        (s, Ok (jsonify [("error" : str, JStr "username already exists")] 409))
      else
        match hash_pw (reg_password f) with
        | Ok digest =>
            ({| USERS := <[reg_username f :=
                             user_record (NEXT_ID s) (reg_username f) (reg_name f)
                               (reg_email f) digest]> (USERS s);
                NEXT_ID := NEXT_ID s + 1 |},
             Ok (jsonify (public_record (NEXT_ID s) (reg_username f) (reg_name f)
                            (reg_email f)) 201))
        | Raise e => (s, Raise e)
        end
  end.
Proof.
  unfold register, read_registration. unfold_view.
  destruct (get _ "username" _) as [v|]; cbv beta iota; [|done].
  destruct (strip_value v) as [u|]; cbv beta iota; [|done].
  destruct (get _ "password" _) as [pw|]; cbv beta iota; [|done].
  destruct (get _ "name" _) as [vn|]; cbv beta iota; [|done].
  destruct (strip_value vn) as [n|]; cbv beta iota; [|done].
  destruct (get _ "email" _) as [ve|]; cbv beta iota; [|done].
  destruct (strip_value ve) as [e|]; cbv beta iota; [|done].
  cbn [reg_username reg_password reg_name reg_email].
  rewrite truthy_str, negb_involutive.
  destruct (eqb_str u ""); cbn [orb]; [done|].
  destruct (truthy pw); cbn [negb]; [|done].
  destruct (bool_decide _); [done|].
  destruct (hash_pw pw) as [h|]; reflexivity.
Qed.

Section Facts.

Variable URLSafeSerializer : str → str → Serializer.
Variable env_SECRET_KEY : option str.

Local Abbreviation signer := (signer URLSafeSerializer env_SECRET_KEY).
Local Abbreviation make_token := (make_token URLSafeSerializer env_SECRET_KEY).
Local Abbreviation parse_token := (parse_token URLSafeSerializer env_SECRET_KEY).
Local Abbreviation login := (login URLSafeSerializer env_SECRET_KEY).
Local Abbreviation profile := (profile URLSafeSerializer env_SECRET_KEY).
Local Abbreviation serve := (serve URLSafeSerializer env_SECRET_KEY).
Local Abbreviation run := (run URLSafeSerializer env_SECRET_KEY).
Local Abbreviation reachable := (reachable URLSafeSerializer env_SECRET_KEY).

(** [login] on the fields it has read. *)
Lemma login_read parsed s :
  login parsed s =
  match read_login parsed with
  | Raise e => (s, Raise e)
  | Ok (username, password) =>
      match USERS s !! username with
      | None | Some [] => (s, Ok invalid_credentials)
      | Some d =>
          match dict_item d "password_hash" with
          | Raise e => (s, Raise e)
          | Ok stored =>
              match hash_pw password with
              | Raise e => (s, Raise e)
              | Ok given =>
                  if ne_str stored given then (s, Ok invalid_credentials)
                  else
                    match make_token username with
                    | Ok token =>
                        (s, Ok (jsonify [("token" : str, JStr token)] 200))
                    | Raise e => (s, Raise e)
                    end
              end
          end
      end
  end.
Proof.
  unfold App.login, read_login, users_get. unfold_view.
  destruct (get _ "username" _) as [v|]; cbv beta iota; [|done].
  destruct (strip_value v) as [u|]; cbv beta iota; [|done].
  destruct (get _ "password" _) as [pw|]; cbv beta iota; [|done].
  destruct (USERS s !! u) as [[|kv d]|]; [reflexivity| |reflexivity].
  cbn [truthy negb item].
  destruct (dict_item (kv :: d) "password_hash") as [stored|]; [|reflexivity].
  destruct (hash_pw pw) as [given|]; [|reflexivity].
  cbv beta iota.
  destruct (ne_str stored given); [reflexivity|].
  destruct (make_token u); reflexivity.
Qed.

Lemma register_frame parsed s :
  (register parsed s).1 = s ∨
  ∃ r, (register parsed s).2 = Ok r ∧ status r = 201.
Proof.
  rewrite register_read.
  destruct (read_registration parsed) as [f|]; [|by left].
  destruct (_ || _); [by left|].
  destruct (bool_decide _); [by left|].
  destruct (hash_pw _); [|by left].
  right. eauto.
Qed.

Lemma login_frame parsed s : (login parsed s).1 = s.
Proof.
  rewrite login_read.
  destruct (read_login parsed) as [[u pw]|]; [|done].
  destruct (USERS s !! u) as [[|kv d]|]; try done.
  destruct (dict_item _ _); [|done].
  destruct (hash_pw pw); [|done].
  destruct (ne_str _ _); [done|].
  by destruct (make_token u).
Qed.

(** C9. A [register] answered with 400 or 409, and a [login] answered
    with 401, leave [USERS] and [NEXT_ID] as they were. *)
Theorem failed_request_keeps_globals :
  (∀ parsed s s' r,
      register parsed s = (s', Ok r) →
      status r = 400 ∨ status r = 409 → s' = s) ∧
  (∀ parsed s s' r,
      login parsed s = (s', Ok r) → status r = 401 → s' = s).
Proof.
  split.
  - intros parsed s s' r Hrun Hst.
    destruct (register_frame parsed s) as [Hs|(r' & Hr' & H201)].
    + by rewrite Hrun in Hs.
    + rewrite Hrun in Hr'. simpl in Hr'. injection Hr' as <-. lia.
  - intros parsed s s' r Hrun _.
    pose proof (login_frame parsed s) as Hs. by rewrite Hrun in Hs.
Qed.

(** C1, as the code has it. For a payload whose username, name and email
    are strings or absent, [register] answers 400 and leaves the globals
    alone when the username is empty once stripped or the password is
    absent or empty (falsy); the password itself is not stripped. *)
Theorem register_requires_username_and_password :
  ∀ (parsed : option json) (d : dict) (u n e : str) (s : store),
    request_payload parsed = JObj d →
    dict_get d "username" (JStr "") = JStr u →
    dict_get d "name" (JStr "") = JStr n →
    dict_get d "email" (JStr "") = JStr e →
    strip u = "" ∨ truthy (dict_get d "password" (JStr "")) = false →
    register parsed s =
    (s, Ok (jsonify [("error" : str, JStr "username and password required")] 400)).
Proof.
  intros parsed d u n e s Hd Hu Hn He Hempty.
  rewrite register_read. unfold read_registration.
  fold (request_payload parsed). rewrite Hd.
  cbn [get]. unfold mbind, result_bind. rewrite Hu, Hn, He.
  cbn [strip_value reg_username reg_password].
  destruct Hempty as [-> | ->]; [done|].
  by rewrite orb_true_r.
Qed.


(** ** What a successful [register] does *)

Lemma eqb_str_neq a b : eqb_str a b = false ↔ a ≠ b.
Proof. destruct (eqb_str_spec a b); split; congruence. Qed.

Lemma sha256_hex_ok pw h : hash_pw (JStr pw) = Ok h → sha256_hex pw = h.
Proof. unfold sha256_hex. by intros ->. Qed.

Lemma password_hash_of_user_record id k name email digest :
  dict_item (user_record id k name email digest) "password_hash" = Ok (JStr digest).
Proof. reflexivity. Qed.

Lemma register_created parsed s s' r :
  register parsed s = (s', Ok r) → status r = 201 →
  ∃ d raw pw rn re,
    request_payload parsed = JObj d ∧
    dict_get d "username" (JStr "") = JStr raw ∧
    dict_get d "password" (JStr "") = JStr pw ∧
    dict_get d "name" (JStr "") = JStr rn ∧
    dict_get d "email" (JStr "") = JStr re ∧
    strip raw ≠ "" ∧ pw ≠ "" ∧
    hash_pw (JStr pw) = Ok (sha256_hex pw) ∧
    USERS s !! strip raw = None ∧
    s' = {| USERS := <[strip raw :=
                        user_record (NEXT_ID s) (strip raw) (strip rn)
                          (strip re) (sha256_hex pw)]> (USERS s);
            NEXT_ID := NEXT_ID s + 1 |} ∧
    r = jsonify (public_record (NEXT_ID s) (strip raw) (strip rn) (strip re)) 201.
Proof.
  rewrite register_read. unfold read_registration.
  fold (request_payload parsed).
  destruct (request_payload parsed) as [| | | | |?|d]; try discriminate.
  unfold mbind, result_bind. cbn [get].
  destruct (dict_get d "username" _) as [| | | |raw| |] eqn:Hu; try discriminate.
  destruct (dict_get d "name" _) as [| | | |rn| |] eqn:Hn; try discriminate.
  destruct (dict_get d "email" _) as [| | | |re| |] eqn:He; try discriminate.
  cbn [strip_value reg_username reg_password reg_name reg_email].
  destruct (eqb_str (strip raw) "") eqn:Hraw; cbn [orb].
  { intros H; inversion H; subst; cbn; discriminate. }
  destruct (truthy _) eqn:Hpw; cbn [negb].
  2:{ intros H; inversion H; subst; cbn; discriminate. }
  destruct (bool_decide _) eqn:Hin.
  { intros H; inversion H; subst; cbn; discriminate. }
  destruct (hash_pw _) as [h|] eqn:Hhash; [|discriminate].
  destruct (dict_get d "password" _) as [| | | |pw| |] eqn:Hp; try discriminate.
  intros H _; inversion H; subst; clear H. exists d, raw, pw, rn, re.
  rewrite (sha256_hex_ok _ _ Hhash).
  split_and!; try done.
  - by apply eqb_str_neq.
  - clear -Hpw. intros ->. discriminate.
  - apply bool_decide_eq_false in Hin.
    by apply eq_None_not_Some.
Qed.

(** ** [profile], case by case *)

Lemma profile_read authorization s :
  profile authorization s =
  let auth := default "" authorization in
  if startswith (lower auth) "bearer " then
    match bearer_token auth with
    | Raise e => (s, Raise e)
    | Ok token =>
        match parse_token token with
        | Raise e => (s, Raise e)
        | Ok username =>
            if truthy username then
              match username with
              | JStr k =>
                  match USERS s !! k with
                  | Some d => (s, Ok (jsonify (dict_without "password_hash" d) 200))
                  | None => (s, Ok invalid_token)
                  end
              | JArr _ | JObj _ => (s, Raise TypeError)
              | _ => (s, Ok invalid_token)
              end
            else (s, Ok invalid_token)
        end
    end
  else (s, Ok missing_bearer_token).
Proof.
  unfold App.profile. cbv zeta.
  destruct (startswith _ _); cbn [negb]; [|reflexivity].
  unfold_view.
  destruct (bearer_token _) as [token|]; [|reflexivity].
  destruct (parse_token (latin1 token)) as [v|]; [|reflexivity].
  destruct (truthy v) eqn:Hv; cbn [negb]; [|reflexivity].
  destruct v; try reflexivity. cbn [users_contains users_item].
  destruct (USERS s !! s0) as [d|] eqn:Hk.
  - rewrite bool_decide_eq_true_2 by eauto. reflexivity.
  - rewrite bool_decide_eq_false_2 by (intros [? ?]; discriminate). reflexivity.
Qed.

Lemma profile_frame authorization s : (profile authorization s).1 = s.
Proof.
  rewrite profile_read. cbv zeta.
  destruct (startswith _ _); [|done].
  destruct (bearer_token _); [|done].
  destruct (parse_token _) as [v|]; [|done].
  destruct (truthy v); [|done].
  destruct v; try done. by destruct (USERS s !! _).
Qed.

(** [auth.split(" ",1)[1]] exists once the prefix test has passed. *)
Lemma lower_char_space c : lower_char c = " "%char → c = " "%char.
Proof.
  destruct c as [[] [] [] [] [] [] [] []]; vm_compute; congruence.
Qed.

Lemma bearer_token_total auth :
  startswith (lower auth) "bearer " = true → ∃ token, bearer_token auth = Ok token.
Proof.
  unfold bearer_token, split_space_1.
  assert (Hcut : ∀ p s, startswith (lower s) (p ++ " ") = true →
                        is_Some (cut_space s)).
  { induction p as [|a p IH]; intros [|c s].
    1,2: change ("" ++ " ") with " ".
    3,4: change (String a p ++ " ") with (String a (p ++ " ")).
    all: cbn [startswith lower cut_space]; try discriminate.
    - destruct (Ascii.eqb_spec " " (lower_char c)) as [Hc|]; [|discriminate].
      symmetry in Hc. apply lower_char_space in Hc as ->. intros _.
      rewrite Ascii.eqb_refl. eauto.
    - destruct (Ascii.eqb a (lower_char c)); [|discriminate].
      intros H%IH. destruct (Ascii.eqb c " "); [eauto|].
      destruct H as [[x y] ->]. eauto. }
  intros [[a b] ->]%(Hcut "bearer"). simpl. eauto.
Qed.

(** ** What every reachable store looks like *)

Lemma serve_cases req s :
  (serve req s).1 = s ∨
  ∃ parsed r, req = PostRegister parsed ∧
              register parsed s = ((serve req s).1, Ok r) ∧ status r = 201.
Proof.
  destruct req as [|parsed|parsed|auth]; simpl.
  - by left.
  - destruct (register_frame parsed s) as [?|(r & Hr & H201)]; [by left|].
    right. exists parsed, r. split_and!; try done.
    destruct (register parsed s) as [s' out]. simpl in *. by subst.
  - left. apply login_frame.
  - left. apply profile_frame.
Qed.

Lemma serve_store_ok req s : store_ok s → store_ok (serve req s).1.
Proof.
  intros Hok.
  destruct (serve_cases req s) as [->|(parsed & r & _ & Hreg & H201)]; [done|].
  destruct (register_created _ _ _ _ Hreg H201)
    as (d & raw & pw & rn & re & _ & _ & _ & _ & _ & _ & _ & _ & _ & -> & _).
  intros k rec. cbn [USERS]. rewrite lookup_insert.
  case_decide as Hk.
  - intros [= <-]. subst k. split; [eauto|apply strip_idemp].
  - apply Hok.
Qed.

Lemma run_store_ok reqs s : store_ok s → store_ok (run reqs s).1.
Proof.
  revert s. induction reqs as [|req reqs IH]; intros s Hok; simpl; [done|].
  pose proof (serve_store_ok req s Hok) as Hok1.
  destruct (serve req s) as [s1 out]. specialize (IH s1 Hok1).
  by destruct (run reqs s1) as [s2 outs].
Qed.

Lemma reachable_store_ok s : reachable s → store_ok s.
Proof.
  intros [reqs <-]. apply run_store_ok. intros k d Hk.
  cbn in Hk. by rewrite lookup_empty in Hk.
Qed.

(** ** Responses *)

Lemma public_of_user_record id k name email digest :
  dict_without "password_hash" (user_record id k name email digest)
  = public_record id k name email.
Proof. reflexivity. Qed.

(** C5. In every reachable state, a 201 from [register] and a 200 from
    [profile] carry a dict with exactly the keys id, username, name and
    email, so without [password_hash]. *)
Theorem responses_hide_password_hash :
  ∀ s, reachable s →
    (∀ parsed s' r,
        register parsed s = (s', Ok r) → status r = 201 →
        ∃ d, body r = JObj d ∧ keys d = public_fields ∧
             ("password_hash" : str) ∉ keys d) ∧
    (∀ authorization s' r,
        profile authorization s = (s', Ok r) → status r = 200 →
        ∃ d, body r = JObj d ∧ keys d = public_fields ∧
             ("password_hash" : str) ∉ keys d).
Proof.
  intros s Hs%reachable_store_ok.
  assert (Hpub : ∀ id k n e, ("password_hash" : str) ∉ keys (public_record id k n e)).
  { intros id k n e. cbn. rewrite !not_elem_of_cons, elem_of_nil.
    split_and!; (discriminate || tauto). }
  split.
  - intros parsed s' r Hreg H201.
    destruct (register_created _ _ _ _ Hreg H201)
      as (d & raw & pw & rn & re & _ & _ & _ & _ & _ & _ & _ & _ & _ & _ & ->).
    eexists. split_and!; [reflexivity|reflexivity|apply Hpub].
  - intros authorization s' r. rewrite profile_read. cbv zeta.
    destruct (startswith _ _).
    2:{ intros [= _ <-]. cbn. discriminate. }
    destruct (bearer_token _); [|discriminate].
    destruct (parse_token _) as [v|]; [|discriminate].
    destruct (truthy v).
    2:{ intros [= _ <-]. cbn. discriminate. }
    destruct v; try discriminate;
      try (intros [= _ <-]; cbn; discriminate).
    destruct (USERS s !! s0) as [rec|] eqn:Hk.
    2:{ intros [= _ <-]. cbn. discriminate. }
    destruct (Hs _ _ Hk) as [(id & n & e & h & ->) _].
    rewrite public_of_user_record. intros [= _ <-] _.
    eexists. split_and!; [reflexivity|reflexivity|apply Hpub].
Qed.

(** C6. A bearer token that parses to a username missing from [USERS] gets
    the 401 "invalid token" response, and so does any bearer token the
    serializer refuses to load: the two responses are the same. *)
Theorem orphan_token_is_invalid_token :
  ∀ s auth token u,
    startswith (lower auth) "bearer " = true →
    bearer_token auth = Ok token →
    parse_token token = Ok (JStr u) →
    USERS s !! u = None →
    profile (Some auth) s = (s, Ok invalid_token) ∧
    ∀ auth' token' e,
      startswith (lower auth') "bearer " = true →
      bearer_token auth' = Ok token' →
      loads signer token' = Raise e →
      profile (Some auth') s = profile (Some auth) s.
Proof.
  intros s auth token u Hpre Htok Hparse Hu.
  assert (Horphan : profile (Some auth) s = (s, Ok invalid_token)).
  { rewrite profile_read. change (default "" (Some auth)) with auth.
    cbv zeta. rewrite Hpre, Htok, Hparse. destruct (truthy (JStr u)); [|done].
    by rewrite Hu. }
  split; [done|].
  intros auth' token' e Hpre' Htok' Hload. rewrite Horphan.
  rewrite profile_read. change (default "" (Some auth')) with auth'.
  cbv zeta. rewrite Hpre', Htok'. unfold App.parse_token.
  fold signer. rewrite Hload. reflexivity.
Qed.

(** ** Ids *)

Lemma serve_created req s :
  (created req (serve req s).2 = [] ∧ NEXT_ID (serve req s).1 = NEXT_ID s) ∨
  (created req (serve req s).2 = [JStr (str_of_int (NEXT_ID s))] ∧
   NEXT_ID (serve req s).1 = NEXT_ID s + 1).
Proof.
  destruct req as [|parsed|parsed|auth]; cbn [App.serve].
  - by left.
  - destruct (register parsed s) as [s' [r|e]] eqn:Hreg; cbn [created fst snd].
    + destruct (status r =? 201)%Z eqn:Hst.
      * apply Z.eqb_eq in Hst.
        destruct (register_created _ _ _ _ Hreg Hst)
          as (d & raw & pw & rn & re & _ & _ & _ & _ & _ & _ & _ & _ & _ & -> & ->).
        by right.
      * left. split; [done|].
        destruct (register_frame parsed s) as [Hs|(r' & Hr' & H201)];
          rewrite Hreg in *; simpl in *; [by subst|].
        injection Hr' as <-. apply Z.eqb_neq in Hst. done.
    + left. split; [done|].
      destruct (register_frame parsed s) as [Hs|(r' & Hr' & H201)];
        rewrite Hreg in *; simpl in *; [by subst|done].
  - left. by rewrite login_frame.
  - left. by rewrite profile_frame.
Qed.

Lemma created_ids_from reqs : ∀ s n id,
  created_ids reqs (run reqs s).2 !! n = Some id →
  id = JStr (str_of_int (NEXT_ID s + Z.of_nat n)).
Proof.
  induction reqs as [|req reqs IH]; intros s n id; cbn [App.run].
  - done.
  - pose proof (serve_created req s) as Hstep.
    destruct (serve req s) as [s1 out]. cbn [fst snd] in Hstep.
    specialize (IH s1). destruct (run reqs s1) as [s2 outs].
    cbn [snd created_ids] in *.
    destruct Hstep as [[-> Hid]|[-> Hid]]; cbn [app].
    + rewrite <- Hid. apply IH.
    + destruct n as [|n]; cbn.
      * intros [= <-]. by rewrite Z.add_0_r.
      * intros H%IH. rewrite H, Hid. do 2 f_equal. lia.
Qed.

Lemma serve_keeps_records req s k d :
  USERS s !! k = Some d → USERS (serve req s).1 !! k = Some d.
Proof.
  intros Hk.
  destruct (serve_cases req s) as [->|(parsed & r & _ & Hreg & H201)]; [done|].
  destruct (register_created _ _ _ _ Hreg H201)
    as (p & raw & pw & rn & re & _ & _ & _ & _ & _ & _ & _ & _ & Hfresh & -> & _).
  cbn [USERS]. rewrite lookup_insert_ne; [done|]. congruence.
Qed.

(** C7. Starting from the freshly imported module, the n-th successful
    [register] of any request sequence returns the id [str(n)]; two
    successful registrations never return the same id; and no request
    removes or changes a stored record. *)
Theorem ids_are_sequential :
  ∀ reqs,
    let ids := created_ids reqs (run reqs initial).2 in
    (∀ n id, ids !! n = Some id → id = JStr (str_of_int (Z.of_nat (S n)))) ∧
    (∀ i j id, ids !! i = Some id → ids !! j = Some id → i = j) ∧
    (∀ req s k d, USERS s !! k = Some d → USERS (serve req s).1 !! k = Some d).
Proof.
  intros reqs ids.
  assert (Hnth : ∀ n id, ids !! n = Some id →
                         id = JStr (str_of_int (Z.of_nat (S n)))).
  { intros n id H%created_ids_from. rewrite H. cbn [NEXT_ID initial].
    do 2 f_equal. lia. }
  split_and!; [done| |apply serve_keeps_records].
  intros i j id Hi%Hnth Hj%Hnth. rewrite Hi in Hj.
  injection Hj as Hj. apply str_of_int_inj in Hj. lia.
Qed.

(** ** Logging in *)

Lemma read_login_dict d u pw :
  dict_get d "username" (JStr "") = JStr u →
  dict_get d "password" (JStr "") = pw →
  read_login (Some (JObj d)) = Ok (strip u, pw).
Proof.
  intros Hu Hpw. unfold read_login.
  replace (py_or (get_json (Some (JObj d))) (JObj [])) with (JObj d)
    by (by destruct d).
  cbn [get]. unfold mbind, result_bind. by rewrite Hu, Hpw.
Qed.

(** X8. With a [str] password that encodes as UTF-8, an unknown username
    and a wrong password get the same response. *)
Lemma login_str_password_uniform s d u pw h :
  reachable s →
  dict_get d "username" (JStr "") = JStr u →
  dict_get d "password" (JStr "") = JStr pw →
  hash_pw (JStr pw) = Ok h →
  USERS s !! strip u = None ∨
  (∃ rec, USERS s !! strip u = Some rec ∧
          dict_item rec "password_hash" ≠ Ok (JStr h)) →
  login (Some (JObj d)) s = (s, Ok invalid_credentials).
Proof.
  intros Hs%reachable_store_ok Hu Hpw Hhash Hcase.
  rewrite login_read, (read_login_dict d u (JStr pw)) by done.
  destruct Hcase as [->|(rec & Hrec & Hne)]; [done|].
  rewrite Hrec. destruct (Hs _ _ Hrec) as [(id & n & e & h' & ->) _].
  rewrite password_hash_of_user_record in Hne |- *.
  rewrite Hhash. cbn [ne_str].
  destruct (eqb_str_spec h' h) as [->|]; [done|].
  reflexivity.
Qed.

(** X19. With a password that is not a [str], the answer depends on whether
    the username is registered: 401 when it is not, an [AttributeError] out
    of [hash_pw] when it is. *)
Lemma login_non_str_password s d u pw :
  reachable s →
  dict_get d "username" (JStr "") = JStr u →
  dict_get d "password" (JStr "") = pw →
  (∀ p, pw ≠ JStr p) →
  login (Some (JObj d)) s =
  (s, if bool_decide (is_Some (USERS s !! strip u))
      then Raise AttributeError else Ok invalid_credentials).
Proof.
  intros Hs%reachable_store_ok Hu Hpw Hnot.
  rewrite login_read, (read_login_dict d u pw) by done.
  destruct (USERS s !! strip u) as [rec|] eqn:Hrec.
  - rewrite bool_decide_eq_true_2 by eauto.
    destruct (Hs _ _ Hrec) as [(id & n & e & h & ->) _].
    rewrite password_hash_of_user_record.
    destruct pw; try reflexivity. by destruct (Hnot s0).
  - rewrite bool_decide_eq_false_2 by (intros [? ?]; discriminate). reflexivity.
Qed.

End Facts.

(** * More of the handlers' behaviour *)

Section Behaviour.

Variable URLSafeSerializer : str → str → Serializer.
Variable env_SECRET_KEY : option str.

Local Abbreviation signer := (signer URLSafeSerializer env_SECRET_KEY).
Local Abbreviation make_token := (make_token URLSafeSerializer env_SECRET_KEY).
Local Abbreviation parse_token := (parse_token URLSafeSerializer env_SECRET_KEY).
Local Abbreviation login := (login URLSafeSerializer env_SECRET_KEY).
Local Abbreviation profile := (profile URLSafeSerializer env_SECRET_KEY).
Local Abbreviation serve := (serve URLSafeSerializer env_SECRET_KEY).
Local Abbreviation run := (run URLSafeSerializer env_SECRET_KEY).
Local Abbreviation reachable := (reachable URLSafeSerializer env_SECRET_KEY).

(** ** Reading the payload *)

Lemma read_registration_payload parsed d raw rn re :
  request_payload parsed = JObj d →
  dict_get d "username" (JStr "") = JStr raw →
  dict_get d "name" (JStr "") = JStr rn →
  dict_get d "email" (JStr "") = JStr re →
  read_registration parsed =
  Ok (Registration (strip raw) (dict_get d "password" (JStr "")) (strip rn) (strip re)).
Proof.
  intros Hd Hu Hn He. unfold read_registration.
  fold (request_payload parsed). rewrite Hd.
  cbn [get]. unfold mbind, result_bind. by rewrite Hu, Hn, He.
Qed.

Lemma read_login_payload parsed d raw :
  request_payload parsed = JObj d →
  dict_get d "username" (JStr "") = JStr raw →
  read_login parsed = Ok (strip raw, dict_get d "password" (JStr "")).
Proof.
  intros Hd Hu. unfold read_login.
  fold (request_payload parsed). rewrite Hd.
  cbn [get]. unfold mbind, result_bind. by rewrite Hu.
Qed.

Lemma payload_of_falsy parsed :
  truthy (get_json parsed) = false → request_payload parsed = JObj [].
Proof. intros H. unfold request_payload, py_or. by rewrite H. Qed.

Lemma id_of_user_record id k name email digest :
  dict_get (user_record id k name email digest) "id" JNull = JStr (str_of_int id).
Proof. reflexivity. Qed.

(** X20. A registration with string fields, a username that is not empty
    once stripped and not yet a key, and a non-empty password that encodes
    as UTF-8 is answered 201 with the id [str(NEXT_ID)] and the stripped
    username, name and email; the record is stored under the stripped
    username with the digest [hash_pw] returns for the password, and
    [NEXT_ID] grows by one. *)
Lemma register_success parsed d raw pw rn re h s :
  request_payload parsed = JObj d →
  dict_get d "username" (JStr "") = JStr raw →
  dict_get d "password" (JStr "") = JStr pw →
  dict_get d "name" (JStr "") = JStr rn →
  dict_get d "email" (JStr "") = JStr re →
  strip raw ≠ "" → pw ≠ "" →
  hash_pw (JStr pw) = Ok h →
  USERS s !! strip raw = None →
  register parsed s =
  ({| USERS := <[strip raw :=
                   user_record (NEXT_ID s) (strip raw) (strip rn) (strip re) h]>
                 (USERS s);
      NEXT_ID := NEXT_ID s + 1 |},
   Ok (jsonify (public_record (NEXT_ID s) (strip raw) (strip rn) (strip re)) 201)).
Proof.
  intros Hd Hu Hp Hn He Hraw Hpw Hhash Hfresh.
  rewrite register_read, (read_registration_payload _ _ _ _ _ Hd Hu Hn He).
  cbn [reg_username reg_password reg_name reg_email]. rewrite Hp, Hhash.
  apply eqb_str_neq in Hraw. rewrite Hraw.
  destruct pw as [|c pw]; [destruct (Hpw eq_refl)|]. cbn [truthy negb orb].
  rewrite bool_decide_eq_false_2; [reflexivity|].
  rewrite Hfresh. intros [? ?]. discriminate.
Qed.

(** [login] once the credentials match. *)
Lemma login_success parsed d raw pw rec h s :
  request_payload parsed = JObj d →
  dict_get d "username" (JStr "") = JStr raw →
  dict_get d "password" (JStr "") = JStr pw →
  USERS s !! strip raw = Some rec →
  dict_item rec "password_hash" = Ok (JStr h) →
  hash_pw (JStr pw) = Ok h →
  login parsed s =
  (s, match make_token (strip raw) with
      | Ok token => Ok (jsonify [("token" : str, JStr token)] 200)
      | Raise e => Raise e
      end).
Proof.
  intros Hd Hu Hp Hrec Hitem Hhash.
  rewrite login_read, (read_login_payload _ _ _ Hd Hu), Hp, Hrec.
  destruct rec as [|kv rec]; [discriminate|].
  rewrite Hitem, Hhash. cbn [ne_str]. rewrite eqb_str_refl. cbn [negb].
  by destruct (make_token (strip raw)).
Qed.

(** ** Registration *)

(** X1. A second registration under a username that strips to a stored key
    is answered 409 and changes nothing, whatever its other fields are. *)
Theorem register_duplicate :
  ∀ parsed d raw rn re s,
    request_payload parsed = JObj d →
    dict_get d "username" (JStr "") = JStr raw →
    dict_get d "name" (JStr "") = JStr rn →
    dict_get d "email" (JStr "") = JStr re →
    truthy (dict_get d "password" (JStr "")) = true →
    is_Some (USERS s !! strip raw) →
    strip raw ≠ "" →
    register parsed s =
    (s, Ok (jsonify [("error" : str, JStr "username already exists")] 409)).
Proof.
  intros parsed d raw rn re s Hd Hu Hn He Hpw Hin Hraw.
  rewrite register_read, (read_registration_payload _ _ _ _ _ Hd Hu Hn He).
  cbn [reg_username reg_password reg_name reg_email].
  apply eqb_str_neq in Hraw. rewrite Hraw, Hpw. cbn [negb orb].
  by rewrite bool_decide_eq_true_2.
Qed.

(** X2. The same registration sent twice: the second is answered 409 and
    leaves the globals as the first one left them. *)
Theorem register_twice :
  ∀ parsed s s' r,
    register parsed s = (s', Ok r) → status r = 201 →
    register parsed s' =
    (s', Ok (jsonify [("error" : str, JStr "username already exists")] 409)).
Proof.
  intros parsed s s' r Hreg H201.
  destruct (register_created _ _ _ _ Hreg H201)
    as (d & raw & pw & rn & re & Hd & Hu & Hp & Hn & He & Hraw & Hpw & _ & _ & -> & _).
  rewrite register_read, (read_registration_payload _ _ _ _ _ Hd Hu Hn He).
  cbn [reg_username reg_password reg_name reg_email USERS]. rewrite Hp.
  apply eqb_str_neq in Hraw. rewrite Hraw.
  destruct pw as [|c pw]; [destruct (Hpw eq_refl)|]. cbn [truthy negb orb].
  rewrite bool_decide_eq_true_2; [done|].
  rewrite lookup_insert_eq. eauto.
Qed.

(** X3. A login right after a successful registration, with the same
    password and a username that strips to the same name, gets past the
    credential check: it is answered 200 with the token [make_token]
    returns for that name, and raises what [make_token] raises when it
    raises. *)
Theorem register_then_login :
  ∀ parsed s s' r,
    register parsed s = (s', Ok r) → status r = 201 →
    ∃ d raw,
      request_payload parsed = JObj d ∧
      dict_get d "username" (JStr "") = JStr raw ∧
      ∀ parsed' d' raw',
        request_payload parsed' = JObj d' →
        dict_get d' "username" (JStr "") = JStr raw' →
        strip raw' = strip raw →
        dict_get d' "password" (JStr "") = dict_get d "password" (JStr "") →
        login parsed' s' =
        (s', match make_token (strip raw) with
             | Ok token => Ok (jsonify [("token" : str, JStr token)] 200)
             | Raise e => Raise e
             end).
Proof.
  intros parsed s s' r Hreg H201.
  destruct (register_created _ _ _ _ Hreg H201)
    as (d & raw & pw & rn & re & Hd & Hu & Hp & _ & _ & _ & _ & Hhash & _ & -> & _).
  exists d, raw. split_and!; [done..|].
  intros parsed' d' raw' Hd' Hu' Hsame Hp'. rewrite Hp in Hp'.
  rewrite <- Hsame.
  eapply login_success; [done..| | |exact Hhash].
  - cbn [USERS]. rewrite Hsame. apply lookup_insert_eq.
  - apply password_hash_of_user_record.
Qed.

(** ** Handlers that only read *)

(** X4. [healthz], [login] and [profile] leave [USERS] and [NEXT_ID] as they
    were, whatever the request and whether they answer or raise. *)
Theorem only_register_writes :
  ∀ s,
    (healthz s).1 = s ∧
    (∀ parsed, (login parsed s).1 = s) ∧
    (∀ authorization, (profile authorization s).1 = s).
Proof.
  intros s. split_and!.
  - reflexivity.
  - intros parsed. apply login_frame.
  - intros authorization. apply profile_frame.
Qed.

(** ** The reachable stores *)

Lemma serve_store_inv req s : store_inv s → store_inv (serve req s).1.
Proof.
  intros (Hsize & Hrec & Hids).
  destruct (serve_cases URLSafeSerializer env_SECRET_KEY req s)
    as [->|(parsed & r & _ & Hreg & H201)]; [done|].
  destruct (register_created _ _ _ _ Hreg H201)
    as (d & raw & pw & rn & re & _ & _ & _ & _ & _ & Hraw & _ & _ & Hfresh & -> & _).
  unfold store_inv. cbn [USERS NEXT_ID]. split_and!.
  - rewrite map_size_insert_None by done. lia.
  - intros k rec. rewrite lookup_insert. case_decide as Hk.
    + intros [= <-]. subst k. split; [done|].
      eexists _, _, _, _. split; [|reflexivity]. lia.
    + intros Hold. destruct (Hrec _ _ Hold) as [Hne (id & n & e & h & Hid & ->)].
      split; [done|]. exists id, n, e, h. split; [lia|done].
  - assert (Hnew : ∀ k rec, USERS s !! k = Some rec →
                     dict_get rec "id" JNull ≠ JStr (str_of_int (NEXT_ID s))).
    { intros k rec Hold. destruct (Hrec _ _ Hold) as [_ (id & n & e & h & Hid & ->)].
      rewrite id_of_user_record. intros [= Heq]. apply str_of_int_inj in Heq. lia. }
    intros k1 k2 d1 d2. rewrite !lookup_insert.
    repeat case_decide; subst.
    + done.
    + intros [= <-] Hold Heq. rewrite id_of_user_record in Heq. symmetry in Heq.
      by destruct (Hnew _ _ Hold).
    + intros Hold [= <-] Heq. rewrite id_of_user_record in Heq.
      by destruct (Hnew _ _ Hold).
    + apply Hids.
Qed.

Lemma run_store_inv reqs s : store_inv s → store_inv (run reqs s).1.
Proof.
  revert s. induction reqs as [|req reqs IH]; intros s Hinv; cbn [App.run]; [done|].
  pose proof (serve_store_inv req s Hinv) as Hinv1.
  destruct (serve req s) as [s1 out]. specialize (IH s1 Hinv1).
  by destruct (run reqs s1) as [s2 outs].
Qed.

Lemma reachable_store_inv s : reachable s → store_inv s.
Proof.
  intros [reqs <-]. apply run_store_inv. split_and!.
  - reflexivity.
  - intros k d Hk. cbn in Hk. by rewrite lookup_empty in Hk.
  - intros k1 k2 d1 d2 Hk. cbn in Hk. by rewrite lookup_empty in Hk.
Qed.

Lemma run_keeps_records reqs s k d :
  USERS s !! k = Some d → USERS (run reqs s).1 !! k = Some d.
Proof.
  revert s. induction reqs as [|req reqs IH]; intros s Hk; cbn [App.run]; [done|].
  pose proof (serve_keeps_records URLSafeSerializer env_SECRET_KEY req s k d Hk) as Hk1.
  destruct (serve req s) as [s1 out]. specialize (IH s1 Hk1).
  by destruct (run reqs s1) as [s2 outs].
Qed.

(** X5. In every reachable state [NEXT_ID] is one more than the number of
    stored users, every record has a non-empty key and an id from 1 up to
    [NEXT_ID - 1], and two different users never have the same id. *)
Theorem reachable_store_is_numbered :
  ∀ s, reachable s →
    NEXT_ID s = 1 + Z.of_nat (size (USERS s)) ∧
    (∀ (k : str) d, USERS s !! k = Some d →
       k ≠ "" ∧
       ∃ id name email digest,
         1 ≤ id < NEXT_ID s ∧ d = user_record id k name email digest) ∧
    (∀ k1 k2 d1 d2,
       USERS s !! k1 = Some d1 → USERS s !! k2 = Some d2 →
       k1 ≠ k2 → dict_get d1 "id" JNull ≠ dict_get d2 "id" JNull).
Proof.
  intros s (Hsize & Hrec & Hids)%reachable_store_inv.
  split_and!; [done|done|].
  intros k1 k2 d1 d2 H1 H2 Hne Heq. apply Hne. by eapply Hids.
Qed.

(** ** What a 200 from [login] means *)

Lemma read_login_inv parsed u pw :
  read_login parsed = Ok (u, pw) →
  ∃ d raw,
    request_payload parsed = JObj d ∧
    dict_get d "username" (JStr "") = JStr raw ∧
    u = strip raw ∧ pw = dict_get d "password" (JStr "").
Proof.
  unfold read_login. fold (request_payload parsed).
  destruct (request_payload parsed) as [| | | | |?|d]; try discriminate.
  cbn [get]. unfold mbind, result_bind.
  destruct (dict_get d "username" _) as [| | | |raw| |] eqn:Hu; try discriminate.
  cbn [strip_value]. intros [= <- <-]. exists d, raw. by split_and!.
Qed.

Lemma hash_pw_ok_inv v h : hash_pw v = Ok h → ∃ pw, v = JStr pw.
Proof. destruct v; try discriminate. eauto. Qed.

Lemma login_ok_inv parsed s s' r :
  login parsed s = (s', Ok r) → status r = 200 →
  ∃ d raw pw rec h token,
    request_payload parsed = JObj d ∧
    dict_get d "username" (JStr "") = JStr raw ∧
    dict_get d "password" (JStr "") = JStr pw ∧
    USERS s !! strip raw = Some rec ∧
    dict_item rec "password_hash" = Ok (JStr h) ∧
    hash_pw (JStr pw) = Ok h ∧
    make_token (strip raw) = Ok token ∧
    s' = s ∧
    r = jsonify [("token" : str, JStr token)] 200.
Proof.
  rewrite login_read.
  destruct (read_login parsed) as [[u pw]|] eqn:Hread; [|discriminate].
  destruct (read_login_inv _ _ _ Hread) as (d & raw & Hd & Hu & -> & ->).
  destruct (USERS s !! strip raw) as [[|kv rec]|] eqn:Hrec;
    try (intros [= _ <-]; cbn; discriminate).
  destruct (dict_item (kv :: rec) "password_hash") as [stored|] eqn:Hitem;
    [|discriminate].
  destruct (hash_pw _) as [h|] eqn:Hhash; [|discriminate].
  destruct (hash_pw_ok_inv _ _ Hhash) as [pw Hp]. rewrite Hp in Hhash.
  destruct (ne_str stored h) eqn:Hne.
  { intros [= _ <-]. cbn. discriminate. }
  destruct (make_token (strip raw)) as [token|] eqn:Htok; [|discriminate].
  intros [= <- <-] _. exists d, raw, pw, (kv :: rec), h, token.
  split_and!; try reflexivity; try assumption.
  destruct stored as [| | | |st| |]; try discriminate. cbn in Hne.
  apply negb_false_iff in Hne.
  by destruct (eqb_str_spec st h) as [->|].
Qed.

(** X6. [login] answers 200 only when the payload is a dict whose username,
    once stripped, is a key of [USERS], whose password is a [str], and the
    [password_hash] stored under that key is what [hash_pw] returns for that
    password; the body then carries the token [make_token] returned for the
    stripped username, and the globals are unchanged. *)
Theorem login_accepts_only_matching_digest :
  ∀ parsed s s' r,
    login parsed s = (s', Ok r) → status r = 200 →
    ∃ d raw pw rec h token,
      request_payload parsed = JObj d ∧
      dict_get d "username" (JStr "") = JStr raw ∧
      dict_get d "password" (JStr "") = JStr pw ∧
      USERS s !! strip raw = Some rec ∧
      dict_item rec "password_hash" = Ok (JStr h) ∧
      hash_pw (JStr pw) = Ok h ∧
      make_token (strip raw) = Ok token ∧
      body r = JObj [("token" : str, JStr token)] ∧
      s' = s.
Proof.
  intros parsed s s' r Hlogin H200.
  destruct (login_ok_inv _ _ _ _ Hlogin H200)
    as (d & raw & pw & rec & h & token & Hd & Hu & Hp & Hrec & Hitem & Hhash
        & Htok & -> & ->).
  exists d, raw, pw, rec, h, token. split_and!; try assumption; reflexivity.
Qed.

(** ** What a 200 from [profile] means *)

Lemma parse_token_inv token v :
  parse_token token = Ok v →
  v = JNull ∨ ∃ d, loads signer token = Ok (JObj d) ∧ v = dict_get d "u" JNull.
Proof.
  unfold App.parse_token.
  destruct (loads signer token) as [data|e]; cbn.
  - destruct data; cbn; intros [= <-]; eauto.
  - intros [= <-]. by left.
Qed.

Lemma parse_token_returns token : ∃ v, parse_token token = Ok v.
Proof.
  unfold App.parse_token.
  destruct (loads signer token) as [data|e]; cbn; [|eauto].
  destruct data; cbn; eauto.
Qed.

Lemma profile_success authorization (token : string) (k : str) rec s :
  startswith (lower (default "" authorization)) "bearer " = true →
  bearer_token (default "" authorization) = Ok token →
  parse_token token = Ok (JStr k) → k ≠ "" →
  USERS s !! k = Some rec →
  profile authorization s = (s, Ok (jsonify (dict_without "password_hash" rec) 200)).
Proof.
  intros Hpre Htok Hparse Hk Hrec.
  rewrite profile_read. cbv zeta. rewrite Hpre, Htok, Hparse.
  destruct k as [|c k]; [destruct (Hk eq_refl)|]. cbn [truthy].
  by rewrite Hrec.
Qed.

Lemma profile_ok_inv authorization s s' r :
  profile authorization s = (s', Ok r) → status r = 200 →
  ∃ (token : string) (k : str) rec,
    startswith (lower (default "" authorization)) "bearer " = true ∧
    bearer_token (default "" authorization) = Ok token ∧
    parse_token token = Ok (JStr k) ∧ k ≠ "" ∧
    USERS s !! k = Some rec ∧
    s' = s ∧
    r = jsonify (dict_without "password_hash" rec) 200.
Proof.
  rewrite profile_read. cbv zeta.
  destruct (startswith _ _) eqn:Hpre.
  2:{ intros [= _ <-]. cbn. discriminate. }
  destruct (bearer_token _) as [token|] eqn:Htok; [|discriminate].
  destruct (parse_token token) as [v|] eqn:Hparse; [|discriminate].
  destruct (truthy v) eqn:Hv.
  2:{ intros [= _ <-]. cbn. discriminate. }
  destruct v as [| | | |k| |]; try discriminate;
    try (intros [= _ <-]; cbn; discriminate).
  destruct (USERS s !! k) as [rec|] eqn:Hrec.
  2:{ intros [= _ <-]. cbn. discriminate. }
  intros [= <- <-] _. exists token, k, rec. split_and!; try done.
  intros ->. discriminate.
Qed.

(** X7. [profile] answers 200 only to a header that passes the prefix test
    and whose token the serializer loads to a dict with a [str] under ["u"]
    that is a key of [USERS]; the body is that user's record without
    [password_hash]. *)
Theorem profile_serves_only_token_subject :
  ∀ authorization s s' r,
    profile authorization s = (s', Ok r) → status r = 200 →
    ∃ auth (token : string) d u rec,
      authorization = Some auth ∧
      startswith (lower auth) "bearer " = true ∧
      bearer_token auth = Ok token ∧
      loads signer token = Ok (JObj d) ∧
      dict_get d "u" JNull = JStr u ∧
      USERS s !! u = Some rec ∧
      body r = JObj (dict_without "password_hash" rec).
Proof.
  intros authorization s s' r Hprofile H200.
  destruct (profile_ok_inv _ _ _ _ Hprofile H200)
    as (token & k & rec & Hpre & Htok & Hparse & _ & Hrec & _ & ->).
  destruct authorization as [auth|]; [|discriminate].
  destruct (parse_token_inv _ _ Hparse) as [|(d & Hload & Hu)]; [discriminate|].
  exists auth, token, d, k, rec. by split_and!.
Qed.

(** ** Credentials keep working *)

(** X9. Nothing expires and nothing is deleted: a login or a profile lookup
    that is answered 200 gets the same answer after any further requests. *)
Theorem success_is_stable :
  ∀ reqs s,
    (∀ parsed s' r,
        login parsed s = (s', Ok r) → status r = 200 →
        login parsed (run reqs s).1 = ((run reqs s).1, Ok r)) ∧
    (∀ authorization s' r,
        profile authorization s = (s', Ok r) → status r = 200 →
        profile authorization (run reqs s).1 = ((run reqs s).1, Ok r)).
Proof.
  intros reqs s. split.
  - intros parsed s' r Hlogin H200.
    destruct (login_ok_inv _ _ _ _ Hlogin H200)
      as (d & raw & pw & rec & h & token & Hd & Hu & Hp & Hrec & Hitem & Hhash
          & Htok & _ & ->).
    rewrite (login_success parsed d raw pw rec h (run reqs s).1 Hd Hu Hp
               (run_keeps_records reqs s _ _ Hrec) Hitem Hhash).
    by rewrite Htok.
  - intros authorization s' r Hprofile H200.
    destruct (profile_ok_inv _ _ _ _ Hprofile H200)
      as (token & k & rec & Hpre & Htok & Hparse & Hk & Hrec & _ & ->).
    eapply profile_success; [done..|].
    by apply run_keeps_records.
Qed.

(** ** Bodies that are empty or do not parse *)

(** X10. A body that does not parse, or parses to a falsy value ([null],
    [false], [0], an empty string, list or object), is read as [{}]:
    [register] answers 400, and in a reachable state [login] answers 401. *)
Theorem empty_body_is_refused :
  ∀ parsed s,
    truthy (get_json parsed) = false →
    register parsed s =
    (s, Ok (jsonify [("error" : str, JStr "username and password required")] 400)) ∧
    (reachable s → login parsed s = (s, Ok invalid_credentials)).
Proof.
  intros parsed s Hd%payload_of_falsy. split.
  - by rewrite register_read,
      (read_registration_payload _ [] "" "" "" Hd eq_refl eq_refl eq_refl).
  - intros (_ & Hrec & _)%reachable_store_inv.
    rewrite login_read, (read_login_payload _ [] "" Hd eq_refl).
    change (strip "") with (latin1 "").
    destruct (USERS s !! latin1 "") as [rec|] eqn:Hk; [|done].
    by destruct (Hrec _ _ Hk) as [? _].
Qed.

(** ** Exceptions that escape *)

Lemma read_registration_raises parsed e :
  read_registration parsed = Raise e → e = AttributeError.
Proof.
  unfold read_registration. unfold mbind, result_bind.
  destruct (get _ "username" _) as [v|] eqn:H1.
  2:{ destruct (py_or _ _); cbn in H1; congruence. }
  destruct (strip_value v) eqn:H2.
  2:{ destruct v; cbn in H2; congruence. }
  destruct (get _ "password" _) eqn:H3.
  2:{ destruct (py_or _ _); cbn in H3; congruence. }
  destruct (get _ "name" _) as [vn|] eqn:H4.
  2:{ destruct (py_or _ _); cbn in H4; congruence. }
  destruct (strip_value vn) eqn:H5.
  2:{ destruct vn; cbn in H5; congruence. }
  destruct (get _ "email" _) as [ve|] eqn:H6.
  2:{ destruct (py_or _ _); cbn in H6; congruence. }
  destruct (strip_value ve) eqn:H7.
  2:{ destruct ve; cbn in H7; congruence. }
  discriminate.
Qed.

Lemma read_login_raises parsed e :
  read_login parsed = Raise e → e = AttributeError.
Proof.
  unfold read_login. unfold mbind, result_bind.
  destruct (get _ "username" _) as [v|] eqn:H1.
  2:{ destruct (py_or _ _); cbn in H1; congruence. }
  destruct (strip_value v) eqn:H2.
  2:{ destruct v; cbn in H2; congruence. }
  destruct (get _ "password" _) eqn:H3.
  2:{ destruct (py_or _ _); cbn in H3; congruence. }
  discriminate.
Qed.

Lemma encode_char_raises n e : encode_char n = Raise e → e = UnicodeEncodeError.
Proof.
  unfold encode_char.
  repeat (match goal with |- context [if ?b then _ else _] => destruct b end);
    congruence.
Qed.

Lemma encode_utf8_raises s e : encode_utf8 s = Raise e → e = UnicodeEncodeError.
Proof.
  induction s as [|c s IH]; cbn [encode_utf8]; [discriminate|].
  destruct (encode_char c) eqn:Hc.
  - destruct (encode_utf8 s); [discriminate|]. intros [= <-]. by apply IH.
  - intros [= <-]. by eapply encode_char_raises.
Qed.

Lemma hash_pw_raises v e :
  hash_pw v = Raise e →
  (e = AttributeError ∧ ∀ pw, v ≠ JStr pw) ∨
  (e = UnicodeEncodeError ∧ ∃ pw, v = JStr pw ∧ encode_utf8 pw = Raise e).
Proof.
  destruct v as [| | | |pw| |]; cbn [hash_pw];
    try (intros [= <-]; left; split; [reflexivity|intros ?; discriminate]).
  unfold mbind, result_bind.
  destruct (encode_utf8 pw) as [data|e'] eqn:Henc; [discriminate|].
  intros [= <-]. right. split; [by eapply encode_utf8_raises|eauto].
Qed.

Lemma hash_pw_encoded pw data :
  encode_utf8 pw = Ok data →
  hash_pw (JStr pw) = Ok (latin1 (Sha256.hexdigest data)).
Proof. intros H. cbn [hash_pw]. by rewrite H. Qed.

(** X11. The only exceptions that escape [register] are [AttributeError]
    and [UnicodeEncodeError]; in a reachable state what escapes [login] is
    one of these two or what [make_token] raised on the stripped username
    of the request, a registered one; and [profile] lets only a [TypeError]
    escape, and only for a token the serializer loaded to a dict whose ["u"]
    is a list or a dict. *)
Theorem escaping_exceptions :
  ∀ s,
    (∀ parsed e,
        (register parsed s).2 = Raise e →
        e = AttributeError ∨ e = UnicodeEncodeError) ∧
    (reachable s →
     ∀ parsed e,
       (login parsed s).2 = Raise e →
       e = AttributeError ∨ e = UnicodeEncodeError ∨
       ∃ d raw,
         request_payload parsed = JObj d ∧
         dict_get d "username" (JStr "") = JStr raw ∧
         is_Some (USERS s !! strip raw) ∧
         make_token (strip raw) = Raise e) ∧
    (∀ authorization e,
        (profile authorization s).2 = Raise e →
        e = TypeError ∧
        ∃ auth (token : string) d,
          authorization = Some auth ∧
          bearer_token auth = Ok token ∧
          loads signer token = Ok (JObj d) ∧
          unhashable (dict_get d "u" JNull)).
Proof.
  intros s. split_and!.
  - intros parsed e. rewrite register_read.
    destruct (read_registration parsed) as [f|e'] eqn:Hread.
    + destruct (_ || _); [discriminate|].
      destruct (bool_decide _); [discriminate|].
      destruct (hash_pw _) eqn:Hhash; [discriminate|].
      cbn. intros [= <-].
      destruct (hash_pw_raises _ _ Hhash) as [[-> _]|[-> _]]; auto.
    + cbn. intros [= <-]. left. by eapply read_registration_raises.
  - intros (_ & Hrec & _)%reachable_store_inv parsed e. rewrite login_read.
    destruct (read_login parsed) as [[u pw]|e'] eqn:Hread.
    + destruct (USERS s !! u) as [rec|] eqn:Hk; [|discriminate].
      destruct (Hrec _ _ Hk) as [_ (id & n & em & h & _ & ->)].
      rewrite password_hash_of_user_record.
      change (user_record id u n em h)
        with (("id" : str, JStr (str_of_int id))
              :: tl (user_record id u n em h)).
      cbv beta iota.
      destruct (hash_pw pw) eqn:Hhash.
      * destruct (ne_str _ _); [discriminate|].
        destruct (make_token u) eqn:Htok; [discriminate|].
        cbn. intros [= <-].
        destruct (read_login_inv _ _ _ Hread) as (d & raw & Hd & Hu & -> & _).
        right. right. exists d, raw. split_and!; eauto.
      * cbn. intros [= <-].
        destruct (hash_pw_raises _ _ Hhash) as [[-> _]|[-> _]]; auto.
    + cbn. intros [= <-]. left. by eapply read_login_raises.
  - intros authorization e. rewrite profile_read. cbv zeta.
    destruct (startswith _ _) eqn:Hpre; [|discriminate].
    destruct (bearer_token_total _ Hpre) as [token Htok].
    rewrite Htok.
    destruct (parse_token_returns token) as [v Hparse]. rewrite Hparse.
    destruct (truthy v); [|discriminate].
    destruct authorization as [auth|]; [|discriminate].
    destruct (parse_token_inv _ _ Hparse) as [->|(d & Hload & ->)];
      [discriminate|].
    destruct (dict_get d "u" JNull) eqn:Hu; try discriminate.
    + destruct (USERS s !! _); discriminate.
    + cbn [snd]. intros [= <-]. split; [done|].
      exists auth, token, d. rewrite Hu. by split_and!.
    + cbn [snd]. intros [= <-]. split; [done|].
      exists auth, token, d. rewrite Hu. by split_and!.
Qed.

(** X12. A registration whose body is an object, whose username, name and
    email are strings (or absent) and whose password is a string that
    encodes as UTF-8 is always answered, with 201, 400 or 409. *)
Theorem typed_registration_is_answered :
  ∀ parsed d raw pw rn re data s,
    request_payload parsed = JObj d →
    dict_get d "username" (JStr "") = JStr raw →
    dict_get d "password" (JStr "") = JStr pw →
    dict_get d "name" (JStr "") = JStr rn →
    dict_get d "email" (JStr "") = JStr re →
    encode_utf8 pw = Ok data →
    ∃ r, (register parsed s).2 = Ok r ∧
         (status r = 201 ∨ status r = 400 ∨ status r = 409).
Proof.
  intros parsed d raw pw rn re data s Hd Hu Hp Hn He Henc.
  rewrite register_read, (read_registration_payload _ _ _ _ _ Hd Hu Hn He).
  cbn [reg_username reg_password reg_name reg_email]. rewrite Hp.
  rewrite (hash_pw_encoded _ _ Henc).
  destruct (_ || _); [eexists; split; [reflexivity|cbn; auto]|].
  destruct (bool_decide _); eexists; (split; [reflexivity|cbn; auto]).
Qed.

(** X13. In a reachable state, a login whose body is an object with a string
    username and a string password (either may be absent) is always
    answered, with 200 or 401, provided the password encodes as UTF-8 and
    [make_token] returns a token for the stripped username. *)
Theorem typed_login_is_answered :
  ∀ parsed d raw pw data token s,
    reachable s →
    request_payload parsed = JObj d →
    dict_get d "username" (JStr "") = JStr raw →
    dict_get d "password" (JStr "") = JStr pw →
    encode_utf8 pw = Ok data →
    make_token (strip raw) = Ok token →
    ∃ r, (login parsed s).2 = Ok r ∧ (status r = 200 ∨ status r = 401).
Proof.
  intros parsed d raw pw data token s (_ & Hrec & _)%reachable_store_inv
    Hd Hu Hp Henc Htok.
  rewrite login_read, (read_login_payload _ _ _ Hd Hu), Hp.
  destruct (USERS s !! strip raw) as [rec|] eqn:Hk.
  2:{ eexists; split; [reflexivity|cbn; auto]. }
  destruct (Hrec _ _ Hk) as [_ (id & n & em & h & _ & ->)].
  rewrite password_hash_of_user_record, (hash_pw_encoded _ _ Henc), Htok.
  change (user_record id (strip raw) n em h)
    with (("id" : str, JStr (str_of_int id))
          :: tl (user_record id (strip raw) n em h)).
  cbv beta iota.
  destruct (ne_str _ _); eexists; (split; [reflexivity|cbn; auto]).
Qed.

(** X22. A password that [hash_pw] cannot digest (a [str] with a lone
    surrogate, which does not encode as UTF-8) is noticed only after the
    other checks: [register] under a fresh username raises and stores
    nothing, and in a reachable state [login] raises when the stripped
    username is registered and answers 401 when it is not. *)
Theorem unencodable_password :
  ∀ parsed d raw pw e s,
    request_payload parsed = JObj d →
    dict_get d "username" (JStr "") = JStr raw →
    dict_get d "password" (JStr "") = JStr pw →
    hash_pw (JStr pw) = Raise e →
    (∀ rn re,
        dict_get d "name" (JStr "") = JStr rn →
        dict_get d "email" (JStr "") = JStr re →
        strip raw ≠ "" → USERS s !! strip raw = None →
        register parsed s = (s, Raise e)) ∧
    (reachable s →
     login parsed s =
     (s, if bool_decide (is_Some (USERS s !! strip raw))
         then Raise e else Ok invalid_credentials)).
Proof.
  intros parsed d raw pw e s Hd Hu Hp Hhash. split.
  - intros rn re Hn He Hraw Hfresh.
    rewrite register_read, (read_registration_payload _ _ _ _ _ Hd Hu Hn He).
    cbn [reg_username reg_password reg_name reg_email]. rewrite Hp, Hhash.
    apply eqb_str_neq in Hraw. rewrite Hraw.
    destruct pw as [|c pw]; [discriminate Hhash|]. cbn [truthy negb orb].
    rewrite bool_decide_eq_false_2; [reflexivity|].
    rewrite Hfresh. intros [? ?]. discriminate.
  - intros (_ & Hrec & _)%reachable_store_inv.
    rewrite login_read, (read_login_payload _ _ _ Hd Hu), Hp.
    destruct (USERS s !! strip raw) as [rec|] eqn:Hk.
    + rewrite bool_decide_eq_true_2 by eauto.
      destruct (Hrec _ _ Hk) as [_ (id & n & em & h & _ & ->)].
      by rewrite password_hash_of_user_record, Hhash.
    + rewrite bool_decide_eq_false_2 by (intros [? ?]; discriminate).
      reflexivity.
Qed.

(** ** Tokens in the Authorization header *)

Lemma lower_app a b : lower (a ++ b) = lower a ++ lower b.
Proof.
  induction a as [|c a IH]; [done|].
  change (String c a ++ b) with (String c (a ++ b)).
  cbn [lower]. by rewrite IH.
Qed.

Lemma startswith_app p x : startswith (p ++ x) p = true.
Proof.
  induction p as [|c p IH]; [by destruct x|].
  change (String c p ++ x) with (String c (p ++ x)).
  cbn [startswith]. by rewrite Ascii.eqb_refl.
Qed.

(** X14. A token whose payload the serializer loads but that names no
    subject (the payload is not a dict, has no ["u"], or has [null] there)
    is answered like a bad token: 401 "invalid token". *)
Theorem token_without_subject :
  ∀ s auth (token : string) v,
    startswith (lower auth) "bearer " = true →
    bearer_token auth = Ok token →
    loads signer token = Ok v →
    (∀ d, v = JObj d → dict_get d "u" JNull = JNull) →
    profile (Some auth) s = (s, Ok invalid_token).
Proof.
  intros s auth token v Hpre Htok Hload Hsubject.
  rewrite profile_read. change (default "" (Some auth)) with auth.
  cbv zeta. rewrite Hpre, Htok. unfold App.parse_token. fold signer.
  rewrite Hload. destruct v; try reflexivity.
  cbv beta iota delta [try_except mbind result_bind get].
  by rewrite (Hsubject _ eq_refl).
Qed.

(** X15. A token opens the profile of the user it names: in a reachable
    state, for a stored user [u], a token without whitespace at its ends
    that the serializer loads to [{"u": u}] is answered, when sent as
    ["Bearer " + token], with 200 and [u]'s stored record without its
    [password_hash], that is its id, username, name and email. *)
Theorem token_opens_profile :
  ∀ s (u : str) rec (t : string),
    reachable s →
    USERS s !! u = Some rec →
    loads signer t = Ok (JObj [("u" : str, JStr u)]) →
    strip_latin1 t = t →
    profile (Some ("Bearer " ++ t)) s =
    (s, Ok (jsonify (dict_without "password_hash" rec) 200)) ∧
    ∃ id name email digest,
      rec = user_record id u name email digest ∧
      dict_without "password_hash" rec = public_record id u name email.
Proof.
  intros s u rec t (_ & Hinv & _)%reachable_store_inv Hrec Hload Hclean.
  destruct (Hinv _ _ Hrec) as [Hu (id & n & e & h & _ & ->)].
  split; [|by exists id, n, e, h].
  apply (profile_success _ t u); try done.
  - change (default "" (Some ("Bearer " ++ t))) with ("Bearer " ++ t).
    rewrite lower_app. apply startswith_app.
  - change (default "" (Some ("Bearer " ++ t)))
      with (String "B" (String "e" (String "a" (String "r"
             (String "e" (String "r" (String " " t))))))).
    unfold bearer_token. cbn. by rewrite Hclean.
  - unfold App.parse_token. fold signer. by rewrite Hload.
Qed.

Lemma cut_space_first a b :
  (∀ x y, lower a ≠ x ++ String " " y) →
  cut_space (a ++ String " " b) = Some (a, b).
Proof.
  induction a as [|c a IH]; intros Hno.
  - done.
  - change (String c a ++ String " " b) with (String c (a ++ String " " b)).
    cbn [cut_space].
    destruct (Ascii.eqb_spec c " ") as [->|Hc].
    + destruct (Hno "" (lower a)). reflexivity.
    + rewrite IH; [done|]. intros x y Hxy.
      apply (Hno (String (lower_char c) x) y). cbn [lower]. by rewrite Hxy.
Qed.

(** X16. The scheme is matched without regard to case and whitespace around
    the token is dropped: a header made of any spelling of "bearer", a space
    and [rest] is answered like ["Bearer "] followed by [rest] stripped. *)
Theorem bearer_scheme_and_padding :
  ∀ scheme rest s,
    lower scheme = "bearer" →
    profile (Some (scheme ++ " " ++ rest)) s =
    profile (Some ("Bearer " ++ strip_latin1 rest)) s.
Proof.
  intros scheme rest s Hscheme.
  assert (Hpre : startswith (lower (scheme ++ " " ++ rest)) "bearer " = true).
  { rewrite lower_app, Hscheme.
    change ("bearer" ++ lower (" " ++ rest)) with ("bearer " ++ lower rest).
    apply startswith_app. }
  assert (Htok : bearer_token (scheme ++ " " ++ rest) = Ok (strip_latin1 rest)).
  { unfold bearer_token, split_space_1.
    change (" " ++ rest) with (String " " rest).
    rewrite cut_space_first; [done|].
    rewrite Hscheme. intros x y Hxy.
    do 7 (destruct x as [|? x];
          [ change ("" ++ String " " y) with (String " " y) in Hxy; discriminate
          | match type of Hxy with
            | _ = String ?c ?x' ++ ?z =>
                change (String c x' ++ z) with (String c (x' ++ z)) in Hxy
            end;
            try discriminate; injection Hxy as _ Hxy ]). }
  assert (Htok' : bearer_token ("Bearer " ++ strip_latin1 rest) = Ok (strip_latin1 rest)).
  { change ("Bearer " ++ strip_latin1 rest)
      with (String "B" (String "e" (String "a" (String "r"
             (String "e" (String "r" (String " " (strip_latin1 rest)))))))).
    unfold bearer_token. cbn. by rewrite strip_latin1_idemp. }
  assert (Hpre' : startswith (lower ("Bearer " ++ strip_latin1 rest)) "bearer " = true).
  { rewrite lower_app. apply startswith_app. }
  rewrite !profile_read.
  change (default "" (Some ?a)) with a. cbv zeta.
  rewrite Hpre, Hpre', Htok, Htok'. reflexivity.
Qed.

(** ** The stored digest *)

Lemma round_length st kw : length (Sha256.round st kw) = length st.
Proof.
  unfold Sha256.round.
  do 9 (destruct st as [|? st]; try reflexivity).
Qed.

Lemma fold_round_length kws st :
  length (fold_left Sha256.round kws st) = length st.
Proof.
  revert st. induction kws as [|kw kws IH]; intros st; cbn; [done|].
  by rewrite IH, round_length.
Qed.

Lemma add_state_length xs ys :
  length xs = length ys → length (Sha256.add_state xs ys) = length xs.
Proof.
  revert ys. induction xs as [|x xs IH]; intros [|y ys]; cbn; try done.
  intros [= H]. by rewrite IH.
Qed.

Lemma compress_length h block : length (Sha256.compress h block) = length h.
Proof.
  unfold Sha256.compress. apply add_state_length.
  by rewrite fold_round_length.
Qed.

Lemma fold_compress_length bs h :
  length (fold_left Sha256.compress bs h) = length h.
Proof.
  revert h. induction bs as [|b bs IH]; intros h; cbn; [done|].
  by rewrite IH, compress_length.
Qed.

Lemma be_bytes_length n x : length (Sha256.be_bytes n x) = n.
Proof.
  unfold Sha256.be_bytes.
  by rewrite length_map, length_rev, length_seq.
Qed.

Lemma be_bytes_small n x : Forall (λ b, (b < 256)%N) (Sha256.be_bytes n x).
Proof.
  unfold Sha256.be_bytes. apply Forall_map, Forall_forall. intros i _.
  cbn. by apply N.mod_lt.
Qed.

Lemma digest_length msg : length (Sha256.digest msg) = 32%nat.
Proof.
  unfold Sha256.digest. cbv zeta.
  pose proof (fold_compress_length
                (Sha256.blocks (length (Sha256.words (Sha256.pad msg)))
                   (Sha256.words (Sha256.pad msg))) Sha256.H0) as Hlen.
  revert Hlen. generalize (fold_left Sha256.compress
    (Sha256.blocks (length (Sha256.words (Sha256.pad msg)))
       (Sha256.words (Sha256.pad msg))) Sha256.H0).
  intros h Hlen. change (length Sha256.H0) with 8%nat in Hlen.
  do 9 (destruct h as [|? h]; try discriminate).
  cbn [flat_map]. rewrite !length_app, !be_bytes_length. reflexivity.
Qed.

Lemma digest_small msg : Forall (λ b, (b < 256)%N) (Sha256.digest msg).
Proof.
  unfold Sha256.digest. cbv zeta.
  generalize (fold_left Sha256.compress
    (Sha256.blocks (length (Sha256.words (Sha256.pad msg)))
       (Sha256.words (Sha256.pad msg))) Sha256.H0).
  induction l as [|x l IH]; cbn [flat_map]; [constructor|].
  apply Forall_app. split; [apply be_bytes_small|done].
Qed.

Lemma hex_digit_is_hex n :
  (n < 16)%N → is_hex_digit (N_of_ascii (Sha256.hex_digit n)) = true.
Proof.
  intros Hn.
  assert (n ∈ [0; 1; 2; 3; 4; 5; 6; 7; 8; 9; 10; 11; 12; 13; 14; 15]%N) as Hin.
  { rewrite !elem_of_cons. lia. }
  rewrite !elem_of_cons, elem_of_nil in Hin.
  repeat (destruct Hin as [->|Hin]; [reflexivity|]). done.
Qed.

Lemma hex_format bs :
  Forall (λ b, (b < 256)%N) bs →
  length (latin1 (Sha256.hex bs)) = (2 * length bs)%nat ∧
  forallb is_hex_digit (latin1 (Sha256.hex bs)) = true.
Proof.
  induction 1 as [|b bs Hb _ [IHlen IHhex]]; [done|].
  cbn [Sha256.hex]. rewrite !latin1_cons. cbn [length forallb]. split.
  - rewrite IHlen. lia.
  - rewrite IHhex, !hex_digit_is_hex; [done| |].
    + by apply N.mod_lt.
    + apply N.Div0.div_lt_upper_bound. lia.
Qed.

Transparent Sha256.hexdigest.

Lemma hexdigest_format data :
  length (latin1 (Sha256.hexdigest data)) = 64%nat ∧
  forallb is_hex_digit (latin1 (Sha256.hexdigest data)) = true.
Proof.
  unfold Sha256.hexdigest.
  destruct (hex_format _ (digest_small data)) as [Hlen Hhex].
  by rewrite Hlen, digest_length.
Qed.

Opaque Sha256.hexdigest.

Lemma hash_pw_ok_format pw h :
  hash_pw (JStr pw) = Ok h →
  length h = 64%nat ∧ forallb is_hex_digit h = true.
Proof.
  cbn [hash_pw]. unfold mbind, result_bind.
  destruct (encode_utf8 pw) as [data|]; [|discriminate].
  intros [= <-]. apply hexdigest_format.
Qed.

Lemma encode_char_scalar n :
  if scalar n then ∃ bs, encode_char n = Ok bs
  else encode_char n = Raise UnicodeEncodeError.
Proof.
  unfold scalar, encode_char.
  repeat match goal with
         | |- context [(?a <? ?b)%N] => destruct (N.ltb_spec a b)
         | |- context [(?a <=? ?b)%N] => destruct (N.leb_spec a b)
         end; cbn; eauto; lia.
Qed.

Lemma encode_utf8_scalar s :
  if forallb scalar s then ∃ data, encode_utf8 s = Ok data
  else encode_utf8 s = Raise UnicodeEncodeError.
Proof.
  induction s as [|c s IH]; cbn [forallb encode_utf8]; [eauto|].
  pose proof (encode_char_scalar c) as Hc.
  destruct (scalar c); cbn [andb].
  - destruct Hc as [bs ->].
    destruct (forallb scalar s).
    + destruct IH as [rest ->]. eauto.
    + by rewrite IH.
  - by rewrite Hc.
Qed.

(** X17. [hash_pw] turns a [str] whose code points all have a UTF-8
    encoding (no surrogate), the empty one included, into 64 hexadecimal
    digits; on a [str] with a surrogate it raises [UnicodeEncodeError], and
    on anything that is not a [str] it raises [AttributeError]. *)
Theorem hash_pw_format :
  ∀ pw : json,
    match pw with
    | JStr s =>
        if forallb scalar s then
          ∃ h, hash_pw pw = Ok h ∧
               length h = 64%nat ∧ forallb is_hex_digit h = true
        else hash_pw pw = Raise UnicodeEncodeError
    | _ => hash_pw pw = Raise AttributeError
    end.
Proof.
  intros pw. destruct pw as [| | | |s| |]; try reflexivity.
  pose proof (encode_utf8_scalar s) as Henc.
  destruct (forallb scalar s).
  - destruct Henc as [data Henc].
    exists (latin1 (Sha256.hexdigest data)).
    split; [by apply hash_pw_encoded|apply hexdigest_format].
  - cbn [hash_pw]. by rewrite Henc.
Qed.

Lemma serve_digests req s :
  (∀ k d, USERS s !! k = Some d →
     ∃ (pw : str) h, pw ≠ "" ∧ hash_pw (JStr pw) = Ok h ∧
             dict_item d "password_hash" = Ok (JStr h)) →
  ∀ k d, USERS (serve req s).1 !! k = Some d →
    ∃ (pw : str) h, pw ≠ "" ∧ hash_pw (JStr pw) = Ok h ∧
            dict_item d "password_hash" = Ok (JStr h).
Proof.
  intros Hold.
  destruct (serve_cases URLSafeSerializer env_SECRET_KEY req s)
    as [->|(parsed & r & _ & Hreg & H201)]; [done|].
  destruct (register_created _ _ _ _ Hreg H201)
    as (d & raw & pw & rn & re & _ & _ & _ & _ & _ & _ & Hpw & Hhash & _ & -> & _).
  intros k rec. cbn [USERS]. rewrite lookup_insert. case_decide.
  - intros [= <-]. exists pw, (sha256_hex pw). split_and!; try assumption.
    apply password_hash_of_user_record.
  - apply Hold.
Qed.

Lemma run_digests reqs s :
  (∀ k d, USERS s !! k = Some d →
     ∃ (pw : str) h, pw ≠ "" ∧ hash_pw (JStr pw) = Ok h ∧
             dict_item d "password_hash" = Ok (JStr h)) →
  ∀ k d, USERS (run reqs s).1 !! k = Some d →
    ∃ (pw : str) h, pw ≠ "" ∧ hash_pw (JStr pw) = Ok h ∧
            dict_item d "password_hash" = Ok (JStr h).
Proof.
  revert s. induction reqs as [|req reqs IH]; intros s Hold; cbn [App.run]; [done|].
  pose proof (serve_digests req s Hold) as Hstep.
  destruct (serve req s) as [s1 out]. specialize (IH s1 Hstep).
  by destruct (run reqs s1) as [s2 outs].
Qed.

(** X18. In every reachable state, each stored [password_hash] is what
    [hash_pw] returns for some non-empty password, 64 hexadecimal digits
    long, and a login with the stored username and that password gets past
    the credential check: it is answered 200 with the token [make_token]
    returns for the username, and raises what [make_token] raises when it
    raises. *)
Theorem stored_digest_is_sha256 :
  ∀ s k d,
    reachable s → USERS s !! k = Some d →
    ∃ (pw : str) h,
      pw ≠ "" ∧
      dict_item d "password_hash" = Ok (JStr h) ∧
      hash_pw (JStr pw) = Ok h ∧
      length h = 64%nat ∧ forallb is_hex_digit h = true ∧
      login (login_payload k (JStr pw)) s =
      (s, match make_token k with
          | Ok token => Ok (jsonify [("token" : str, JStr token)] 200)
          | Raise e => Raise e
          end).
Proof.
  intros s k d Hreach Hk.
  destruct (reachable_store_ok _ _ _ Hreach _ _ Hk) as [_ Hstrip].
  destruct Hreach as [reqs <-].
  destruct (run_digests reqs initial) with (k := k) (d := d)
    as (pw & h & Hpw & Hhash & Hitem); [|done|].
  { intros k' d' Hk'. cbn in Hk'. by rewrite lookup_empty in Hk'. }
  destruct (hash_pw_ok_format _ _ Hhash) as [Hlen Hhex].
  exists pw, h. split_and!; try assumption.
  pose proof (login_success (login_payload k (JStr pw))
                [("username" : str, JStr k); ("password" : str, JStr pw)] k pw d h
                (run reqs initial).1 eq_refl eq_refl eq_refl) as Hlogin.
  rewrite Hstrip in Hlogin. by apply Hlogin.
Qed.

(** ** Whitespace around the username *)

(** X21. [register] stores the record under the stripped username and
    touches no other key; and in a reachable state, for a stored user [u]
    whose digest is that of [p], a login whose username is [u] between
    whitespace and whose password is [p] gets past the credential check: it
    is answered 200 with the token [make_token] returns for [u], and raises
    what [make_token] raises when it raises. *)
Theorem username_is_stripped :
  (∀ parsed s s' r,
      register parsed s = (s', Ok r) → status r = 201 →
      ∃ d raw,
        request_payload parsed = JObj d ∧
        dict_get d "username" (JStr "") = JStr raw ∧
        is_Some (USERS s' !! strip raw) ∧
        ∀ k, k ≠ strip raw → USERS s' !! k = USERS s !! k) ∧
  (∀ s u rec p h d l r,
      reachable s →
      USERS s !! u = Some rec →
      dict_item rec "password_hash" = Ok (JStr h) →
      hash_pw (JStr p) = Ok h →
      whitespace l = true → whitespace r = true →
      dict_get d "username" (JStr "") = JStr (l ++ u ++ r)%list →
      dict_get d "password" (JStr "") = JStr p →
      login (Some (JObj d)) s =
      (s, match make_token u with
          | Ok token => Ok (jsonify [("token" : str, JStr token)] 200)
          | Raise e => Raise e
          end)).
Proof.
  split.
  - intros parsed s s' r Hreg H201.
    destruct (register_created _ _ _ _ Hreg H201)
      as (d & raw & pw & rn & re & Hd & Hu & _ & _ & _ & _ & _ & _ & _ & -> & _).
    exists d, raw. cbn [USERS]. split_and!; [done|done| |].
    + rewrite lookup_insert_eq. eauto.
    + intros k Hk. by rewrite lookup_insert_ne.
  - intros s u rec p h d l r Hs Hrec Hitem Hhash Hl Hr Hu Hp.
    destruct (reachable_store_ok _ _ _ Hs _ _ Hrec) as [_ Hstrip].
    assert (Hd : request_payload (Some (JObj d)) = JObj d) by (by destruct d).
    pose proof (login_success (Some (JObj d)) d _ p rec h s Hd Hu Hp) as Hlogin.
    rewrite strip_padded, Hstrip in Hlogin by done.
    by apply Hlogin.
Qed.

End Behaviour.

(** * Concrete runs *)

Lemma with_alice_reachable : reachable Checksum.serializer None with_alice.
Proof. exists [alice]. reflexivity. Qed.

Lemma with_surrogate_reachable : reachable Checksum.serializer None with_surrogate.
Proof.
  exists [PostRegister (registration_payload lone_surrogate "pw" "" "")].
  reflexivity.
Qed.

(** The scenario of the specification: ids "1" and "2", a good and a bad
    login, the profile behind a token, a garbage token, no header. *)
Example scenario :
  (run Checksum.serializer None
     [ alice; bob;
       PostLogin (login_payload "alice" (JStr "pw1"));
       PostLogin (login_payload "alice" (JStr "wrong"));
       GetProfile (Some ("Bearer " ++ token_for "alice"));
       GetProfile (Some "Bearer garbage");
       GetProfile None ] initial).2
  = [ Ok (jsonify (public_record 1 "alice" "Alice" "a@x.com") 201);
      Ok (jsonify (public_record 2 "bob" "Bob" "b@x.com") 201);
      Ok (jsonify [("token" : str, JStr (token_for "alice"))] 200);
      Ok invalid_credentials;
      Ok (jsonify (public_record 1 "alice" "Alice" "a@x.com") 200);
      Ok invalid_token;
      Ok missing_bearer_token ].
Proof. vm_compute. reflexivity. Qed.

(** C1 fails as stated: a password of one space is empty once stripped, yet
    the registration is accepted and the record is stored. *)
Lemma register_accepts_blank_password :
  strip " " = "" ∧
  (register (registration_payload "alice" " " "" "") initial).2
  = Ok (jsonify (public_record 1 "alice" "" "") 201) ∧
  USERS (register (registration_payload "alice" " " "" "") initial).1 !! ("alice" : str)
  = Some (user_record 1 "alice" "" "" (sha256_hex " ")).
Proof. vm_compute. auto. Qed.

(** A username of two spaces is refused, whatever else is supplied. *)
Lemma register_requires_username_and_password_witness :
  register (registration_payload "  " "pw1" "Alice" "a@x.com") with_alice
  = (with_alice,
     Ok (jsonify [("error" : str, JStr "username and password required")] 400)).
Proof.
  apply (register_requires_username_and_password
           (registration_payload "  " "pw1" "Alice" "a@x.com")
           [ ("username" : str, JStr "  "); ("password" : str, JStr "pw1");
             ("name" : str, JStr "Alice"); ("email" : str, JStr "a@x.com") ]
           "  " "Alice" "a@x.com" with_alice);
    [reflexivity | reflexivity | reflexivity | reflexivity | left; reflexivity].
Defined.

(** C2 on the code: [register] accepts the username ["\ud800"], and
    [make_token] raises on it, so there is no token to parse. *)
Theorem make_token_raises_on_registered_username :
  register (registration_payload lone_surrogate "pw" "" "") initial
  = (with_surrogate, Ok (jsonify (public_record 1 lone_surrogate "" "") 201)) ∧
  make_token Checksum.serializer None lone_surrogate = Raise UnicodeEncodeError.
Proof. split; vm_compute; reflexivity. Qed.

(** C3 on the code: with a [null] password, an unknown username is answered
    401 while a registered one makes [hash_pw] raise. *)
Theorem login_null_password_reveals_user :
  login Checksum.serializer None (login_payload "ghost" JNull) with_alice
  = (with_alice, Ok invalid_credentials) ∧
  login Checksum.serializer None (login_payload "alice" JNull) with_alice
  = (with_alice, Raise AttributeError).
Proof. split; vm_compute; reflexivity. Qed.


(** The profile behind alice's token carries the four public fields. *)
Lemma responses_hide_password_hash_witness :
  ∃ d, body (jsonify (public_record 1 "alice" "Alice" "a@x.com") 200) = JObj d ∧
       keys d = public_fields ∧ ("password_hash" : str) ∉ keys d.
Proof.
  apply (proj2 (responses_hide_password_hash Checksum.serializer None
                  with_alice with_alice_reachable)
           (Some ("Bearer " ++ token_for "alice")) with_alice).
  - vm_compute. reflexivity.
  - reflexivity.
Defined.

(** A well-signed token for a user who never registered. *)
Lemma orphan_token_is_invalid_token_witness :
  profile Checksum.serializer None (Some ("Bearer " ++ token_for "ghost")) with_alice
  = (with_alice, Ok invalid_token).
Proof.
  apply (orphan_token_is_invalid_token Checksum.serializer None with_alice
           ("Bearer " ++ token_for "ghost") (token_for "ghost") "ghost").
  - vm_compute. reflexivity.
  - vm_compute. reflexivity.
  - vm_compute. reflexivity.
  - vm_compute. reflexivity.
Defined.

(** A login between two registrations does not consume an id. *)
Lemma ids_are_sequential_witness :
  let reqs := [alice; PostLogin (login_payload "alice" (JStr "pw1")); bob] in
  created_ids reqs (run Checksum.serializer None reqs initial).2 !! 1%nat
  = Some (JStr "2") ∧
  JStr "2" = JStr (str_of_int (Z.of_nat 2)).
Proof.
  split.
  - vm_compute. reflexivity.
  - apply (proj1 (ids_are_sequential Checksum.serializer None
                    [alice; PostLogin (login_payload "alice" (JStr "pw1")); bob])
             1%nat (JStr "2")).
    vm_compute. reflexivity.
Defined.

(** A duplicate registration and a wrong password change nothing. *)
Lemma failed_request_keeps_globals_witness :
  (register (registration_payload "alice" "other" "" "") with_alice).1 = with_alice ∧
  (login Checksum.serializer None (login_payload "alice" (JStr "wrong")) with_alice).1
  = with_alice.
Proof.
  split.
  - apply (proj1 (failed_request_keeps_globals Checksum.serializer None)
             (registration_payload "alice" "other" "" "") with_alice _
             (jsonify [("error" : str, JStr "username already exists")] 409)).
    + vm_compute. reflexivity.
    + right. reflexivity.
  - apply (proj2 (failed_request_keeps_globals Checksum.serializer None)
             (login_payload "alice" (JStr "wrong")) with_alice _ invalid_credentials).
    + vm_compute. reflexivity.
    + reflexivity.
Defined.

(** C10 on the code: the user registered as ["\ud800"] sends the registered
    password and the username between spaces, and [login] raises instead of
    issuing a token. *)
Theorem registered_surrogate_cannot_log_in :
  USERS with_surrogate !! lone_surrogate
  = Some (user_record 1 lone_surrogate "" "" (sha256_hex "pw")) ∧
  login Checksum.serializer None
    (login_payload (latin1 " " ++ lone_surrogate ++ latin1 " ")%list (JStr "pw"))
    with_surrogate
  = (with_surrogate, Raise UnicodeEncodeError).
Proof. split; vm_compute; reflexivity. Qed.

(** ** Runs for the further properties *)

Lemma login_str_password_uniform_witness :
  login Checksum.serializer None (login_payload "ghost" (JStr "x")) with_alice
  = (with_alice, Ok invalid_credentials) ∧
  login Checksum.serializer None (login_payload "alice" (JStr "wrongpass")) with_alice
  = (with_alice, Ok invalid_credentials).
Proof.
  split.
  - apply (login_str_password_uniform Checksum.serializer None with_alice
             [("username" : str, JStr "ghost"); ("password" : str, JStr "x")]
             "ghost" "x" (sha256_hex "x")
             with_alice_reachable eq_refl eq_refl).
    + vm_compute. reflexivity.
    + left. vm_compute. reflexivity.
  - apply (login_str_password_uniform Checksum.serializer None with_alice
             [("username" : str, JStr "alice"); ("password" : str, JStr "wrongpass")]
             "alice" "wrongpass" (sha256_hex "wrongpass")
             with_alice_reachable eq_refl eq_refl).
    + vm_compute. reflexivity.
    + right. eexists. split; [vm_compute; reflexivity|].
      vm_compute. discriminate.
Defined.

Lemma login_non_str_password_witness :
  login Checksum.serializer None (login_payload "alice" (JInt 5)) with_alice
  = (with_alice,
     if bool_decide (is_Some (USERS with_alice !! strip "alice"))
     then Raise AttributeError else Ok invalid_credentials).
Proof.
  apply (login_non_str_password Checksum.serializer None with_alice
           [("username" : str, JStr "alice"); ("password" : str, JInt 5)]
           "alice" (JInt 5) with_alice_reachable eq_refl eq_refl).
  intros p. discriminate.
Defined.

Lemma register_duplicate_witness :
  register (Some (JObj [("username" : str, JStr " alice "); ("password" : str, JInt 5)]))
    with_alice
  = (with_alice, Ok (jsonify [("error" : str, JStr "username already exists")] 409)).
Proof.
  apply (register_duplicate
           (Some (JObj [("username" : str, JStr " alice "); ("password" : str, JInt 5)]))
           [("username" : str, JStr " alice "); ("password" : str, JInt 5)]
           " alice " "" "" with_alice eq_refl eq_refl eq_refl eq_refl eq_refl).
  - vm_compute. eauto.
  - vm_compute. discriminate.
Defined.

Lemma register_twice_witness :
  register (registration_payload "alice" "pw1" "Alice" "a@x.com") with_alice
  = (with_alice, Ok (jsonify [("error" : str, JStr "username already exists")] 409)).
Proof.
  apply (register_twice (registration_payload "alice" "pw1" "Alice" "a@x.com")
           initial with_alice
           (jsonify (public_record 1 "alice" "Alice" "a@x.com") 201)).
  - vm_compute. reflexivity.
  - reflexivity.
Defined.

Lemma register_then_login_witness :
  ∃ d raw,
    request_payload (registration_payload "alice" "pw1" "Alice" "a@x.com") = JObj d ∧
    dict_get d "username" (JStr "") = JStr raw ∧
    ∀ parsed' d' raw',
      request_payload parsed' = JObj d' →
      dict_get d' "username" (JStr "") = JStr raw' →
      strip raw' = strip raw →
      dict_get d' "password" (JStr "") = dict_get d "password" (JStr "") →
      login Checksum.serializer None parsed' with_alice =
      (with_alice,
       match make_token Checksum.serializer None (strip raw) with
       | Ok token => Ok (jsonify [("token" : str, JStr token)] 200)
       | Raise e => Raise e
       end).
Proof.
  apply (register_then_login Checksum.serializer None
           (registration_payload "alice" "pw1" "Alice" "a@x.com")
           initial with_alice
           (jsonify (public_record 1 "alice" "Alice" "a@x.com") 201)).
  - vm_compute. reflexivity.
  - reflexivity.
Defined.

Lemma reachable_store_is_numbered_witness :
  NEXT_ID with_alice = 1 + Z.of_nat (size (USERS with_alice)).
Proof.
  apply (proj1 (reachable_store_is_numbered Checksum.serializer None
                  with_alice with_alice_reachable)).
Defined.

Lemma login_accepts_only_matching_digest_witness :
  ∃ d raw pw rec h token,
    request_payload (login_payload " alice" (JStr "pw1")) = JObj d ∧
    dict_get d "username" (JStr "") = JStr raw ∧
    dict_get d "password" (JStr "") = JStr pw ∧
    USERS with_alice !! strip raw = Some rec ∧
    dict_item rec "password_hash" = Ok (JStr h) ∧
    hash_pw (JStr pw) = Ok h ∧
    make_token Checksum.serializer None (strip raw) = Ok token ∧
    body (jsonify [("token" : str, JStr (token_for "alice"))] 200)
    = JObj [("token" : str, JStr token)] ∧
    with_alice = with_alice.
Proof.
  apply (login_accepts_only_matching_digest Checksum.serializer None
           (login_payload " alice" (JStr "pw1")) with_alice with_alice).
  - vm_compute. reflexivity.
  - reflexivity.
Defined.

Lemma profile_serves_only_token_subject_witness :
  ∃ auth (token : string) d u rec,
    Some ("bearer " ++ token_for "alice") = Some auth ∧
    startswith (lower auth) "bearer " = true ∧
    bearer_token auth = Ok token ∧
    loads (signer Checksum.serializer None) token = Ok (JObj d) ∧
    dict_get d "u" JNull = JStr u ∧
    USERS with_alice !! u = Some rec ∧
    body (jsonify (public_record 1 "alice" "Alice" "a@x.com") 200)
    = JObj (dict_without "password_hash" rec).
Proof.
  apply (profile_serves_only_token_subject Checksum.serializer None
           (Some ("bearer " ++ token_for "alice")) with_alice with_alice).
  - vm_compute. reflexivity.
  - reflexivity.
Defined.

Lemma success_is_stable_witness :
  login Checksum.serializer None (login_payload "alice" (JStr "pw1"))
    (run Checksum.serializer None [bob] with_alice).1
  = ((run Checksum.serializer None [bob] with_alice).1,
     Ok (jsonify [("token" : str, JStr (token_for "alice"))] 200)) ∧
  profile Checksum.serializer None (Some ("Bearer " ++ token_for "alice"))
    (run Checksum.serializer None [bob] with_alice).1
  = ((run Checksum.serializer None [bob] with_alice).1,
     Ok (jsonify (public_record 1 "alice" "Alice" "a@x.com") 200)).
Proof.
  split.
  - apply (proj1 (success_is_stable Checksum.serializer None [bob] with_alice)
             (login_payload "alice" (JStr "pw1")) with_alice).
    + vm_compute. reflexivity.
    + reflexivity.
  - apply (proj2 (success_is_stable Checksum.serializer None [bob] with_alice)
             (Some ("Bearer " ++ token_for "alice")) with_alice).
    + vm_compute. reflexivity.
    + reflexivity.
Defined.

Lemma empty_body_is_refused_witness :
  register (Some (JArr [])) with_alice
  = (with_alice,
     Ok (jsonify [("error" : str, JStr "username and password required")] 400)) ∧
  login Checksum.serializer None None with_alice
  = (with_alice, Ok invalid_credentials).
Proof.
  split.
  - apply (proj1 (empty_body_is_refused Checksum.serializer None
                    (Some (JArr [])) with_alice eq_refl)).
  - apply (proj2 (empty_body_is_refused Checksum.serializer None
                    None with_alice eq_refl) with_alice_reachable).
Defined.

Lemma escaping_exceptions_witness :
  ((register (registration_payload "zed" lone_surrogate "" "") with_alice).2
   = Raise UnicodeEncodeError ∧
   (UnicodeEncodeError = AttributeError ∨ UnicodeEncodeError = UnicodeEncodeError)) ∧
  ((login Checksum.serializer None (login_payload lone_surrogate (JStr "pw"))
      with_surrogate).2 = Raise UnicodeEncodeError ∧
   (UnicodeEncodeError = AttributeError ∨ UnicodeEncodeError = UnicodeEncodeError ∨
    ∃ d raw,
      request_payload (login_payload lone_surrogate (JStr "pw")) = JObj d ∧
      dict_get d "username" (JStr "") = JStr raw ∧
      is_Some (USERS with_surrogate !! strip raw) ∧
      make_token Checksum.serializer None (strip raw) = Raise UnicodeEncodeError)) ∧
  ((profile (loads_always (JObj [("u" : str, JArr [JInt 1])])) None
      (Some "Bearer t") with_alice).2 = Raise TypeError ∧
   TypeError = TypeError ∧
   ∃ auth (token : string) d,
     Some "Bearer t" = Some auth ∧
     bearer_token auth = Ok token ∧
     loads (signer (loads_always (JObj [("u" : str, JArr [JInt 1])])) None) token
     = Ok (JObj d) ∧
     unhashable (dict_get d "u" JNull)).
Proof.
  split_and!; try (vm_compute; reflexivity).
  - apply (proj1 (escaping_exceptions Checksum.serializer None with_alice)
             (registration_payload "zed" lone_surrogate "" "") UnicodeEncodeError).
    vm_compute. reflexivity.
  - apply (proj1 (proj2 (escaping_exceptions Checksum.serializer None with_surrogate))
             with_surrogate_reachable
             (login_payload lone_surrogate (JStr "pw")) UnicodeEncodeError).
    vm_compute. reflexivity.
  - apply (proj2 (proj2 (escaping_exceptions
                           (loads_always (JObj [("u" : str, JArr [JInt 1])])) None
                           with_alice))
             (Some "Bearer t") TypeError).
    vm_compute. reflexivity.
Defined.

Lemma typed_registration_is_answered_witness :
  ∃ r, (register (registration_payload "carol" "pw3" "" "") with_alice).2 = Ok r ∧
       (status r = 201 ∨ status r = 400 ∨ status r = 409).
Proof.
  apply (typed_registration_is_answered
           (registration_payload "carol" "pw3" "" "")
           [ ("username" : str, JStr "carol"); ("password" : str, JStr "pw3");
             ("name" : str, JStr ""); ("email" : str, JStr "") ]
           "carol" "pw3" "" "" [112; 119; 51]%N with_alice);
    reflexivity.
Defined.

Lemma typed_login_is_answered_witness :
  ∃ r, (login Checksum.serializer None
          (Some (JObj [("username" : str, JStr "alice")])) with_alice).2 = Ok r ∧
       (status r = 200 ∨ status r = 401).
Proof.
  apply (typed_login_is_answered Checksum.serializer None
           (Some (JObj [("username" : str, JStr "alice")]))
           [("username" : str, JStr "alice")] "alice" "" [] (token_for "alice")
           with_alice with_alice_reachable);
    reflexivity.
Defined.

Lemma unencodable_password_witness :
  register (registration_payload "zed" lone_surrogate "" "") with_alice
  = (with_alice, Raise UnicodeEncodeError) ∧
  login Checksum.serializer None (login_payload "alice" (JStr lone_surrogate)) with_alice
  = (with_alice,
     if bool_decide (is_Some (USERS with_alice !! strip "alice"))
     then Raise UnicodeEncodeError else Ok invalid_credentials).
Proof.
  split.
  - apply (proj1 (unencodable_password Checksum.serializer None
                    (registration_payload "zed" lone_surrogate "" "")
                    [ ("username" : str, JStr "zed");
                      ("password" : str, JStr lone_surrogate);
                      ("name" : str, JStr ""); ("email" : str, JStr "") ]
                    "zed" lone_surrogate UnicodeEncodeError with_alice
                    eq_refl eq_refl eq_refl eq_refl) "" "" eq_refl eq_refl).
    + vm_compute. discriminate.
    + vm_compute. reflexivity.
  - apply (proj2 (unencodable_password Checksum.serializer None
                    (login_payload "alice" (JStr lone_surrogate))
                    [ ("username" : str, JStr "alice");
                      ("password" : str, JStr lone_surrogate) ]
                    "alice" lone_surrogate UnicodeEncodeError with_alice
                    eq_refl eq_refl eq_refl eq_refl) with_alice_reachable).
Defined.

Lemma token_without_subject_witness :
  profile (loads_always (JObj [("user" : str, JStr "alice")])) None
    (Some "Bearer anything") with_alice
  = (with_alice, Ok invalid_token).
Proof.
  apply (token_without_subject (loads_always (JObj [("user" : str, JStr "alice")])) None
           with_alice "Bearer anything" "anything"
           (JObj [("user" : str, JStr "alice")])).
  - reflexivity.
  - reflexivity.
  - reflexivity.
  - intros d [= <-]. reflexivity.
Defined.

Lemma token_opens_profile_witness :
  profile Checksum.serializer None (Some ("Bearer " ++ token_for "alice")) with_alice
  = (with_alice,
     Ok (jsonify (dict_without "password_hash"
                    (user_record 1 "alice" "Alice" "a@x.com" (sha256_hex "pw1"))) 200)) ∧
  ∃ id name email digest,
    user_record 1 "alice" "Alice" "a@x.com" (sha256_hex "pw1")
    = user_record id "alice" name email digest ∧
    dict_without "password_hash"
      (user_record 1 "alice" "Alice" "a@x.com" (sha256_hex "pw1"))
    = public_record id "alice" name email.
Proof.
  apply (token_opens_profile Checksum.serializer None with_alice "alice"
           (user_record 1 "alice" "Alice" "a@x.com" (sha256_hex "pw1"))
           (token_for "alice") with_alice_reachable).
  - vm_compute. reflexivity.
  - vm_compute. reflexivity.
  - vm_compute. reflexivity.
Defined.

Lemma bearer_scheme_and_padding_witness :
  profile Checksum.serializer None
    (Some ("BeArEr" ++ " " ++ "  " ++ token_for "alice" ++ " ")) with_alice
  = profile Checksum.serializer None
      (Some ("Bearer " ++ strip_latin1 ("  " ++ token_for "alice" ++ " "))) with_alice.
Proof.
  apply (bearer_scheme_and_padding Checksum.serializer None
           "BeArEr" ("  " ++ token_for "alice" ++ " ") with_alice).
  reflexivity.
Defined.

Lemma stored_digest_is_sha256_witness :
  ∃ (pw : str) h,
    pw ≠ "" ∧
    dict_item (user_record 1 "alice" "Alice" "a@x.com" (sha256_hex "pw1"))
      "password_hash" = Ok (JStr h) ∧
    hash_pw (JStr pw) = Ok h ∧
    length h = 64%nat ∧ forallb is_hex_digit h = true ∧
    login Checksum.serializer None (login_payload "alice" (JStr pw)) with_alice =
    (with_alice,
     match make_token Checksum.serializer None "alice" with
     | Ok token => Ok (jsonify [("token" : str, JStr token)] 200)
     | Raise e => Raise e
     end).
Proof.
  apply (stored_digest_is_sha256 Checksum.serializer None with_alice "alice"
           (user_record 1 "alice" "Alice" "a@x.com" (sha256_hex "pw1"))
           with_alice_reachable).
  vm_compute. reflexivity.
Defined.

Lemma register_success_witness :
  register (registration_payload " bob " "pw2" " Bob" "b@x.com ") with_alice
  = ({| USERS := <[("bob" : str) :=
                     user_record 2 "bob" "Bob" "b@x.com" (sha256_hex "pw2")]>
                   (USERS with_alice);
        NEXT_ID := 3 |},
     Ok (jsonify (public_record 2 "bob" "Bob" "b@x.com") 201)).
Proof.
  apply (register_success (registration_payload " bob " "pw2" " Bob" "b@x.com ")
           [ ("username" : str, JStr " bob "); ("password" : str, JStr "pw2");
             ("name" : str, JStr " Bob"); ("email" : str, JStr "b@x.com ") ]
           " bob " "pw2" " Bob" "b@x.com " (sha256_hex "pw2") with_alice
           eq_refl eq_refl eq_refl eq_refl eq_refl).
  - vm_compute. discriminate.
  - discriminate.
  - vm_compute. reflexivity.
  - vm_compute. reflexivity.
Defined.

(** alice logs in with spaces around her username. *)
Lemma username_is_stripped_witness :
  login Checksum.serializer None (login_payload "  alice " (JStr "pw1")) with_alice
  = (with_alice,
     match make_token Checksum.serializer None "alice" with
     | Ok token => Ok (jsonify [("token" : str, JStr token)] 200)
     | Raise e => Raise e
     end).
Proof.
  apply (proj2 (username_is_stripped Checksum.serializer None)
           with_alice ("alice" : str)
           (user_record 1 "alice" "Alice" "a@x.com" (sha256_hex "pw1"))
           "pw1" (sha256_hex "pw1")
           [("username" : str, JStr "  alice "); ("password" : str, JStr "pw1")]
           ("  " : str) (" " : str) with_alice_reachable).
  - vm_compute. reflexivity.
  - vm_compute. reflexivity.
  - vm_compute. reflexivity.
  - reflexivity.
  - reflexivity.
  - reflexivity.
  - reflexivity.
Defined.
